(** * Tc-Img-Rot-Script: the transformation detector of [compare_data.py]

    A shallow embedding of [ImageComparator] (its five transforms,
    [calculate_similarity], [detect_transformation], the reporting test of
    [compare] and [visualize_difference]) together with the part of numpy
    the class calls, and the properties of the detector proved over it.

    Modelling conventions.
    - A numpy 2-D array is its shape and its row-major buffer.  numpy itself
      keeps [length data = height * width]; the predicate [well_shaped]
      states it, and [uint8_array] adds the value range of dtype uint8.
    - [self.original_img] and [self.transformed_img] are [None] until
      [load_images] has run, so an image attribute is a [pyval].
    - Python exceptions are the [Raise] results of an error monad; the
      [try]/[except Exception] of the sweep is [try_except].
    - A Python float is read in two ways.  [pyfloat] is [NaN] or the
      exact rational value of the expression, kept in lowest terms; it
      carries the arguments on the order of scores and on the scores 0 and
      100.  Every finite score of one sweep is [matches / total * 100] with
      the same [total], so two scores compare on the rationals as they do
      on the doubles for every image below 2^50 pixels.  Module [Float64]
      evaluates the same expressions on IEEE binary64 numbers, rounding
      after each operation as the interpreter does; the statements on the
      value a function returns are made there.
    - [print] appends a line to the [stdout] field of the loop state. *)

From Stdlib Require Import List ZArith QArith Qreduction Bool Arith Lia.
From Stdlib Require Import Permutation.
From Stdlib Require String Ascii.
From Stdlib Require PrimFloat Uint63.
Import ListNotations.
Import PrimFloat.

Local Open Scope nat_scope.

(** ** Exceptions *)

Inductive exn : Type :=
| AttributeError
| ValueError.

Inductive result (A : Type) : Type :=
| Ok (a : A)
| Raise (e : exn).

Arguments Ok {A} a.
Arguments Raise {A} e.

Definition bind {A B : Type} (c : result A) (k : A -> result B) : result B :=
  match c with
  | Ok a => k a
  | Raise e => Raise e
  end.

Notation "x <- c ;; k" := (bind c (fun x => k))
  (at level 61, c at next level, right associativity).

(** [try: body except Exception as e: handler e] *)
Definition try_except {A : Type} (body : result A) (handler : exn -> result A)
  : result A :=
  match body with
  | Ok a => Ok a
  | Raise e => handler e
  end.

(** ** Python floats *)

Inductive pyfloat : Type :=
| NaN
| Fl (q : Q).

Definition Qltb (a b : Q) : bool := negb (Qle_bool b a).

(** [x > y]; every comparison with nan is False. *)
Definition py_gt (x y : pyfloat) : bool :=
  match x, y with
  | Fl a, Fl b => Qltb b a
  | _, _ => false
  end.

(** [x >= y] *)
Definition py_ge (x y : pyfloat) : bool :=
  match x, y with
  | Fl a, Fl b => Qle_bool b a
  | _, _ => false
  end.

(** [x * c], as the exact product *)
Definition py_mul (x : pyfloat) (c : Q) : pyfloat :=
  match x with
  | NaN => NaN
  | Fl a => Fl (Qred (a * c))
  end.

(** ** The numpy arrays and functions used by the comparator *)

Module Np.

Record ndarray : Type := mk_ndarray { shape : nat * nat; data : list Z }.

Definition height (m : ndarray) : nat := fst (shape m).
Definition width (m : ndarray) : nat := snd (shape m).

(** [m.size] *)
Definition size (m : ndarray) : nat := height m * width m.

(** [m[i, j]] for an index inside the shape *)
Definition get (m : ndarray) (i j : nat) : Z :=
  nth (i * width m + j) (data m) 0%Z.

Definition tabulate {A : Type} (h w : nat) (f : nat -> nat -> A) : list A :=
  flat_map (fun i => map (f i) (seq 0 w)) (seq 0 h).

Definition build (h w : nat) (f : nat -> nat -> Z) : ndarray :=
  mk_ndarray (h, w) (tabulate h w f).

Definition well_shaped (m : ndarray) : Prop :=
  length (data m) = height m * width m.

Definition uint8_array (m : ndarray) : Prop :=
  well_shaped m /\ Forall (fun v => (0 <= v < 256)%Z) (data m).

Definition shape_eqb (a b : ndarray) : bool :=
  Nat.eqb (height a) (height b) && Nat.eqb (width a) (width b).

(** [np.transpose(m)]: [out[i, j] = m[j, i]] *)
Definition transpose (m : ndarray) : ndarray :=
  build (width m) (height m) (fun i j => get m j i).

(** [np.fliplr(m)], that is [m[:, ::-1]] *)
Definition fliplr (m : ndarray) : ndarray :=
  build (height m) (width m) (fun i j => get m i (width m - 1 - j)).

(** [np.flipud(m)], that is [m[::-1, ...]] *)
Definition flipud (m : ndarray) : ndarray :=
  build (height m) (width m) (fun i j => get m (height m - 1 - i) j).

(** [np.rot90(m, k)] on the axes (0, 1): [k %= 4], then
    [k == 0]: [m[:]]; [k == 2]: [flip(flip(m, 0), 1)];
    [k == 1]: [transpose(flip(m, 1))]; otherwise [flip(transpose(m), 1)]. *)
Definition rot90 (m : ndarray) (k : Z) : ndarray :=
  let k := (k mod 4)%Z in
  if (k =? 0)%Z then m
  else if (k =? 2)%Z then fliplr (flipud m)
  else if (k =? 1)%Z then transpose (fliplr m)
  else fliplr (transpose m).

(** [a == b] for arrays of one shape, flattened *)
Definition equal (a b : ndarray) : list bool :=
  tabulate (height a) (width a) (fun i j => Z.eqb (get a i j) (get b i j)).

(** [np.sum] of a boolean array *)
Definition sum_bool (l : list bool) : Z :=
  fold_right (fun (b : bool) acc => ((if b then 1 else 0) + acc)%Z) 0%Z l.

(** [matches / total] for a numpy integer over a Python int, as the exact
    quotient: 0/0 is nan (with a RuntimeWarning, not an exception).  A
    zero [total] only occurs for an array without pixels, whose match
    count is 0. *)
Definition true_divide (m t : Z) : pyfloat :=
  if (t =? 0)%Z then NaN else Fl (Qred (inject_Z m / inject_Z t)).

(** [.astype(np.int16)] and the wrap-around of int16 arithmetic *)
Definition wrap_int16 (z : Z) : Z := ((z + 32768) mod 65536 - 32768)%Z.

(** [.astype(np.uint8)] *)
Definition wrap_uint8 (z : Z) : Z := (z mod 256)%Z.

(** [np.abs(a.astype(np.int16) - b.astype(np.int16))] *)
Definition abs_difference (a b : ndarray) : ndarray :=
  build (height a) (width a)
    (fun i j => wrap_int16 (Z.abs (wrap_int16
                  (wrap_int16 (get a i j) - wrap_int16 (get b i j))))).

(** [np.clip(d * 5, 0, 255).astype(np.uint8)] *)
Definition amplify (d : ndarray) : ndarray :=
  build (height d) (width d)
    (fun i j => wrap_uint8 (Z.min 255 (Z.max 0 (wrap_int16 (get d i j * 5))))).

(** [np.count_nonzero(d)] *)
Definition count_nonzero (d : ndarray) : nat :=
  length (filter (fun v => negb (Z.eqb v 0)) (data d)).

(** [np.max(d)]: a zero-size array has no maximum *)
Definition max (d : ndarray) : result Z :=
  match data d with
  | [] => Raise ValueError
  | v :: l => Ok (fold_left Z.max l v)
  end.

(** [np.mean(d)], as the exact quotient of the sum by the size; nan for a
    zero-size array *)
Definition mean (d : ndarray) : pyfloat :=
  true_divide (fold_right Z.add 0%Z (data d)) (Z.of_nat (size d)).

End Np.

(** A Python value held in an image attribute *)
Inductive pyval : Type :=
| PyNone
| PyArr (a : Np.ndarray).

(** numpy's [asanyarray(None)] is a 0-d object array: [rot90] and [fliplr]
    reject it ("Axes out of range", "Input must be >= 2-d.") and [flipud]
    does too ("Input must be >= 1-d."), all with ValueError. *)
Definition np_rot90 (m : pyval) (k : Z) : result pyval :=
  match m with
  | PyArr a => Ok (PyArr (Np.rot90 a k))
  | PyNone => Raise ValueError
  end.

Definition np_fliplr (m : pyval) : result pyval :=
  match m with
  | PyArr a => Ok (PyArr (Np.fliplr a))
  | PyNone => Raise ValueError
  end.

Definition np_flipud (m : pyval) : result pyval :=
  match m with
  | PyArr a => Ok (PyArr (Np.flipud a))
  | PyNone => Raise ValueError
  end.

(** ** [class TransformType(Enum)] *)

Inductive TransformType : Type :=
| IDENTICAL
| ROTATE_CW
| ROTATE_CCW
| ROTATE_180
| MIRROR_H
| MIRROR_V
| UNKNOWN.

(** ** [class ImageComparator] *)

(** The attributes of a comparator that the detector reads.  [__init__]
    sets both images to [None]; [load_images] stores two 2-D uint8 arrays. *)
Record ImageComparator : Type := mk_comparator {
  original_img : pyval;
  transformed_img : pyval;
  threshold : Q
}.

(** What the sweep prints for one hypothesis *)
Inductive status : Type := MATCH | PARTIAL | NO_MATCH.

Inductive line : Type :=
| Tested (t : TransformType) (s : status) (similarity : pyfloat)
| Errored (t : TransformType) (e : exn).

(** [calculate_similarity(self, img1, img2)]; [None.shape] raises
    AttributeError. *)
Definition calculate_similarity (img1 img2 : pyval) : result pyfloat :=
  match img1, img2 with
  | PyArr a, PyArr b =>
      if negb (Np.shape_eqb a b) then Ok (Fl 0)
      else
        let matches := Np.sum_bool (Np.equal a b) in
        let total := Z.of_nat (Np.size a) in
        let similarity := py_mul (Np.true_divide matches total) 100 in
        Ok similarity
  | _, _ => Raise AttributeError
  end.

Definition apply_rotate_cw (img : pyval) : result pyval := np_rot90 img (-1).
Definition apply_rotate_ccw (img : pyval) : result pyval := np_rot90 img 1.
Definition apply_rotate_180 (img : pyval) : result pyval := np_rot90 img 2.
Definition apply_mirror_h (img : pyval) : result pyval := np_fliplr img.
Definition apply_mirror_v (img : pyval) : result pyval := np_flipud img.

Definition transformation : Type := TransformType * (pyval -> result pyval).

(** The list [transformations] built at the start of
    [detect_transformation] *)
Definition transformations : list transformation :=
  [ (IDENTICAL, fun x => Ok x);
    (ROTATE_CW, apply_rotate_cw);
    (ROTATE_CCW, apply_rotate_ccw);
    (ROTATE_180, apply_rotate_180);
    (MIRROR_H, apply_mirror_h);
    (MIRROR_V, apply_mirror_v) ].

(** The locals of [detect_transformation] that the loop updates, and what
    it has printed *)
Record sweep_state : Type := mk_sweep {
  best_match : TransformType;
  best_similarity : pyfloat;
  results : list (TransformType * pyfloat);
  stdout : list line
}.

Definition sweep_init : sweep_state :=
  mk_sweep UNKNOWN (Fl 0) [] [].

(** One iteration of the [for] loop: the [try] body, and the [except]
    branch that only prints.  Every statement of the body that can raise
    comes before its first assignment, so the handler sees the state of the
    start of the iteration. *)
Definition test_transformation (self : ImageComparator) (st : sweep_state)
    (tr : transformation) : result sweep_state :=
  let '(trans_type, trans_func) := tr in
  try_except
    (transformed <- trans_func (original_img self) ;;
     similarity <- calculate_similarity transformed (transformed_img self) ;;
     let results' := results st ++ [(trans_type, similarity)] in
     let is_match := py_ge similarity (Fl (threshold self * 100)) in
     let printed :=
       if is_match then MATCH
       else if py_gt similarity (Fl 50) then PARTIAL
       else NO_MATCH in
     let stdout' := stdout st ++ [Tested trans_type printed similarity] in
     if py_gt similarity (best_similarity st)
     then Ok (mk_sweep trans_type similarity results' stdout')
     else Ok (mk_sweep (best_match st) (best_similarity st) results' stdout'))
    (fun e =>
       Ok (mk_sweep (best_match st) (best_similarity st) (results st)
             (stdout st ++ [Errored trans_type e]))).

(** [for x in l: body] over a threaded state *)
Fixpoint for_each {A S : Type} (l : list A) (body : S -> A -> result S)
    (st : S) : result S :=
  match l with
  | [] => Ok st
  | x :: l' => st' <- body st x ;; for_each l' body st'
  end.

(** The loop of [detect_transformation] over any list of hypotheses *)
Definition sweep (self : ImageComparator) (trs : list transformation)
  : result sweep_state :=
  for_each trs (test_transformation self) sweep_init.

Definition verdict : Type :=
  TransformType * pyfloat * list (TransformType * pyfloat).

Definition detect_transformation (self : ImageComparator) : result verdict :=
  st <- sweep self transformations ;;
  Ok (best_match st, best_similarity st, results st).

Definition bestKind (v : verdict) : TransformType := fst (fst v).
Definition bestScore (v : verdict) : pyfloat := snd (fst v).
Definition allResults (v : verdict) : list (TransformType * pyfloat) := snd v.

(** The statistics [visualize_difference] prints, and the image it saves
    when [save_path] is given *)
Record difference_report : Type := mk_report {
  saved : option Np.ndarray;
  non_zero : nat;
  total : nat;
  diff_percentage : pyfloat;
  max_difference : Z;
  mean_difference : pyfloat
}.

(** [visualize_difference(self, save_path)]: [None] stands for the early
    [return] after "Cannot create difference map".  [diff_img] is assigned
    and never read; it is left out.  [np.count_nonzero] gives a numpy
    integer, so on arrays without pixels [non_zero / total] is nan, with a
    warning, and the first statement to raise is [np.max(diff)]. *)
Definition visualize_difference (self : ImageComparator) (save_path : bool)
  : result (option difference_report) :=
  match original_img self, transformed_img self with
  | PyArr a, PyArr b =>
      if negb (Np.shape_eqb a b) then Ok None
      else
        let diff := Np.abs_difference a b in
        let diff_amplified := Np.amplify diff in
        let written := if save_path then Some diff_amplified else None in
        let non_zero := Np.count_nonzero diff in
        let total := Np.size diff in
        let diff_percentage :=
          py_mul (Np.true_divide (Z.of_nat non_zero) (Z.of_nat total)) 100 in
        mx <- Np.max diff ;;
        Ok (Some (mk_report written non_zero total diff_percentage mx
                    (Np.mean diff)))
  | _, _ => Raise AttributeError
  end.

(** The mode values printed by [compare] *)
Definition mode_map (t : TransformType) : option Z :=
  match t with
  | ROTATE_CW => Some 0%Z
  | ROTATE_CCW => Some 1%Z
  | MIRROR_H => Some 2%Z
  | MIRROR_V => Some 3%Z
  | _ => None
  end.

Inductive detection_result : Type :=
| Detected (t : TransformType) (confidence : pyfloat) (mode : option Z)
| NoClearTransformation (best : TransformType) (similarity : pyfloat)
    (threshold_percent : Q).

(** [compare(self, save_diff)] once [load_images] has returned: the
    detection, the reporting test on the threshold, the optional
    difference map. *)
Definition compare (self : ImageComparator) (save_diff : bool)
  : result (TransformType * detection_result) :=
  v <- detect_transformation self ;;
  let '(detected_type, similarity, _) := v in
  let shown :=
    if py_ge similarity (Fl (threshold self * 100))
    then Detected detected_type similarity (mode_map detected_type)
    else NoClearTransformation detected_type similarity
           (threshold self * 100) in
  _ <- (if save_diff then visualize_difference self true else Ok None) ;;
  Ok (detected_type, shown).


Definition example4x4 : Np.ndarray :=
  Np.mk_ndarray (4, 4) [1;2;3;4;5;6;7;8;9;10;11;12;13;14;15;16]%Z.

Definition example4x4_cw : Np.ndarray :=
  Np.mk_ndarray (4, 4) [13;9;5;1;14;10;6;2;15;11;7;3;16;12;8;4]%Z.

(** ** The doubles the scorer and the reporter compute *)

Module Float64.

(** A count as a double: what numpy makes of an integer operand of [/].
    The conversion rounds to nearest and is exact below 2^53. *)
Definition of_int (z : Z) : PrimFloat.float :=
  PrimFloat.of_uint63 (Uint63.of_Z z).

(** [calculate_similarity(self, img1, img2)]: the quotient is rounded,
    then the product; 0 / 0 is nan. *)
Definition calculate_similarity (img1 img2 : pyval)
  : result PrimFloat.float :=
  match img1, img2 with
  | PyArr a, PyArr b =>
      if negb (Np.shape_eqb a b) then Ok 0%float
      else
        let matches := Np.sum_bool (Np.equal a b) in
        let total := Z.of_nat (Np.size a) in
        let similarity :=
          PrimFloat.mul (PrimFloat.div (of_int matches) (of_int total))
            100%float in
        Ok similarity
  | _, _ => Raise AttributeError
  end.

(** [np.mean(d)] of an integer array: the entries are added as doubles,
    which is exact while the sum stays below 2^53, and the sum is divided
    by the number of entries. *)
Definition mean (d : Np.ndarray) : PrimFloat.float :=
  PrimFloat.div (of_int (fold_right Z.add 0%Z (Np.data d)))
    (of_int (Z.of_nat (Np.size d))).

Record difference_report : Type := mk_report {
  saved : option Np.ndarray;
  non_zero : nat;
  total : nat;
  diff_percentage : PrimFloat.float;
  max_difference : Z;
  mean_difference : PrimFloat.float
}.

(** [visualize_difference(self, save_path)], with the percentage and the
    mean as doubles.  On arrays without pixels the percentage is nan and
    [np.max(diff)] raises.  Writing the image is taken to succeed. *)
Definition visualize_difference (self : ImageComparator) (save_path : bool)
  : result (option difference_report) :=
  match original_img self, transformed_img self with
  | PyArr a, PyArr b =>
      if negb (Np.shape_eqb a b) then Ok None
      else
        let diff := Np.abs_difference a b in
        let diff_amplified := Np.amplify diff in
        let written := if save_path then Some diff_amplified else None in
        let non_zero := Np.count_nonzero diff in
        let total := Np.size diff in
        let diff_percentage :=
          PrimFloat.mul
            (PrimFloat.div (of_int (Z.of_nat non_zero))
               (of_int (Z.of_nat total)))
            100%float in
        mx <- Np.max diff ;;
        Ok (Some (mk_report written non_zero total diff_percentage mx
                    (mean diff)))
  | _, _ => Raise AttributeError
  end.

End Float64.

(** ** Vocabulary of the statements *)

(** The index pairs of an [h] by [w] array, row by row *)
Definition positions (h w : nat) : list (nat * nat) :=
  list_prod (seq 0 h) (seq 0 w).

(** The number of positions at which [a] and [b] hold the same value *)
Definition matching_positions (a b : Np.ndarray) : nat :=
  length (filter (fun p => Z.eqb (Np.get a (fst p) (snd p))
                                 (Np.get b (fst p) (snd p)))
            (positions (Np.height a) (Np.width a))).

(** Applying one hypothesis and scoring it: the two calls of the [try]
    body that can raise *)
Definition attempt (self : ImageComparator) (tr : transformation)
  : result pyfloat :=
  transformed <- snd tr (original_img self) ;;
  calculate_similarity transformed (transformed_img self).

(** The test [if similarity > best_similarity] on the running best *)
Definition keep_best (best r : TransformType * pyfloat)
  : TransformType * pyfloat :=
  if py_gt (snd r) (snd best) then r else best.

(** The entries the sweep appends to [results]: one for each hypothesis
    whose attempt returned, none for one that raised *)
Definition scored (self : ImageComparator) (trs : list transformation)
  : list (TransformType * pyfloat) :=
  flat_map (fun tr => match attempt self tr with
                      | Ok similarity => [(fst tr, similarity)]
                      | Raise _ => []
                      end) trs.

(** The pair [(best_match, best_similarity)] of a loop state *)
Definition running_best (st : sweep_state) : TransformType * pyfloat :=
  (best_match st, best_similarity st).

(** The score [calculate_similarity] returns for two arrays *)
Definition similarity_of (a b : Np.ndarray) : pyfloat :=
  match calculate_similarity (PyArr a) (PyArr b) with
  | Ok s => s
  | Raise _ => NaN
  end.

(** A comparator after [load_images] stored two arrays *)
Definition loaded (a b : Np.ndarray) (thr : Q) : ImageComparator :=
  mk_comparator (PyArr a) (PyArr b) thr.

(** The kinds of [transformations], in the order of the list *)
Definition declaration_order : list TransformType :=
  [IDENTICAL; ROTATE_CW; ROTATE_CCW; ROTATE_180; MIRROR_H; MIRROR_V].

(** The elementwise absolute differences of two buffers *)
Definition absolute_differences (la lb : list Z) : list Z :=
  map (fun p => Z.abs (fst p - snd p)) (combine la lb).

(** ** Loading the images, and [main] *)

Inductive image_role : Type := Original | Transformed.

(** What [compare] lets through to [main]: the FileNotFoundError that
    [load_images] raises for either image, or an exception of the
    detector or of the difference report *)
Inductive failure : Type :=
| FileNotFoundError (which : image_role)
| Unexpected (e : exn).

Inductive outcome (A : Type) : Type :=
| Returned (a : A)
| Failed (f : failure).

Arguments Returned {A} a.
Arguments Failed {A} f.

(** [ImageComparator(original, transformed, threshold)]: [__init__]
    leaves both images at [None]. *)
Definition new_comparator (thr : Q) : ImageComparator :=
  mk_comparator PyNone PyNone thr.

(** [load_images(self)].  [opened_original] and [opened_transformed] are
    what [np.array(Image.open(path).convert('L'))] gives for the two
    paths: an array, or any exception, which is re-raised as a
    FileNotFoundError.  The transformed image is opened only once the
    original is loaded. *)
Definition load_images (self : ImageComparator)
    (opened_original opened_transformed : result Np.ndarray)
  : outcome ImageComparator :=
  match opened_original with
  | Raise _ => Failed (FileNotFoundError Original)
  | Ok a =>
      match opened_transformed with
      | Raise _ => Failed (FileNotFoundError Transformed)
      | Ok b => Returned (mk_comparator (PyArr a) (PyArr b) (threshold self))
      end
  end.

(** [compare(self, save_diff)] from its first statement: load, then
    detect and report, and return the detected kind. *)
Definition compare_files (self : ImageComparator)
    (opened_original opened_transformed : result Np.ndarray)
    (save_diff : bool) : outcome TransformType :=
  match load_images self opened_original opened_transformed with
  | Failed f => Failed f
  | Returned self' =>
      match compare self' save_diff with
      | Ok (detected_type, _) => Returned detected_type
      | Raise e => Failed (Unexpected e)
      end
  end.

(** What [type=float] makes of the [--threshold] text: a finite double,
    or one of nan, inf and -inf, which [float] accepts too. *)
Inductive float_argument : Type :=
| Finite (q : Q)
| NotFinite.

(** The parsed arguments [main] reads; [--verbose] and [--no-color] only
    change what is printed. *)
Record arguments : Type := mk_arguments {
  args_threshold : float_argument;
  args_diff : bool
}.

(** What [parser.parse_args()] does with the command line: [-h] or
    [--help] prints the help and exits with status 0; a command line that
    argparse rejects (a missing path, an unknown option, a threshold that
    is not a float) exits with status 2; otherwise the arguments are
    returned. *)
Inductive parse_outcome : Type :=
| HelpShown
| UsageError
| Parsed (args : arguments).

(** [main()], as the status the process exits with.  [parse_arguments]
    stands for the outcome of its first statement.  The test
    [0 <= args.threshold <= 1] is false for nan and for the infinities.
    Writing the difference map to disk is taken to succeed. *)
Definition main (parse_arguments : parse_outcome)
    (opened_original opened_transformed : result Np.ndarray) : Z :=
  match parse_arguments with
  | HelpShown => 0%Z
  | UsageError => 2%Z
  | Parsed args =>
      match args_threshold args with
      | NotFinite => 1%Z
      | Finite thr =>
          if negb (Qle_bool 0 thr && Qle_bool thr 1)
          then 1%Z
          else
            match compare_files (new_comparator thr)
                    opened_original opened_transformed (args_diff args) with
            | Returned detected =>
                match detected with
                | UNKNOWN => 1%Z
                | _ => 0%Z
                end
            | Failed (FileNotFoundError _) => 1%Z
            | Failed (Unexpected _) => 1%Z
            end
      end
  end.

(** The scores of the six hypotheses for two loaded arrays, in
    declaration order *)
Definition hypothesis_scores (a b : Np.ndarray) : list pyfloat :=
  [ similarity_of a b;
    similarity_of (Np.rot90 a (-1)) b;
    similarity_of (Np.rot90 a 1) b;
    similarity_of (Np.rot90 a 2) b;
    similarity_of (Np.fliplr a) b;
    similarity_of (Np.flipud a) b ].

(** ** [pixels2gray.py]: [class MatrixConverter] *)

Module MatrixConverter.

(** [data.min()] and [data.max()] of a 1-D array: a zero-size array has
    neither *)
Definition np_min (data : list Z) : result Z :=
  match data with
  | [] => Raise ValueError
  | v :: l => Ok (fold_left Z.min l v)
  end.

Definition np_max (data : list Z) : result Z :=
  match data with
  | [] => Raise ValueError
  | v :: l => Ok (fold_left Z.max l v)
  end.

(** [np.clip(data, lo, hi)] *)
Definition np_clip (data : list Z) (lo hi : Z) : list Z :=
  map (fun v => Z.min hi (Z.max lo v)) data.

(** [process_pixels(self, data)] on the int32 array of [read_matrix]:
    the uint8 array it returns, with whether the out-of-range warning was
    printed. *)
Definition process_pixels (data : list Z) : result (bool * list Z) :=
  min_val <- np_min data ;;
  max_val <- np_max data ;;
  if (min_val <? 0)%Z || (max_val >? 255)%Z
  then Ok (true, map Np.wrap_uint8 (np_clip data 0 255))
  else Ok (false, map Np.wrap_uint8 data).

End MatrixConverter.

(** ** Hexadecimal output: [gray2pixels.py] and [gray2mem.py] *)

Module Fmt.

Import Ascii String.
Local Open Scope string_scope.

(** The newline character *)
Definition nl : string := String "010"%char "".

Definition hex_char (d : Z) : ascii :=
  match d with
  | 0%Z => "0" | 1%Z => "1" | 2%Z => "2" | 3%Z => "3"
  | 4%Z => "4" | 5%Z => "5" | 6%Z => "6" | 7%Z => "7"
  | 8%Z => "8" | 9%Z => "9" | 10%Z => "A" | 11%Z => "B"
  | 12%Z => "C" | 13%Z => "D" | 14%Z => "E" | 15%Z => "F"
  | _ => "?"
  end%char.

(** The hexadecimal digits of [n >= 0], most significant first *)
Fixpoint hex_digits (fuel : nat) (n : Z) : list ascii :=
  match fuel with
  | O => []
  | S fuel' =>
      if (n <? 16)%Z then [hex_char n]
      else hex_digits fuel' (n / 16) ++ [hex_char (n mod 16)]
  end.

(** [format(n, "X")] for [n >= 0]; the binary length bounds the number
    of hexadecimal digits. *)
Definition to_hex (n : Z) : list ascii :=
  hex_digits (S (Z.to_nat (Z.log2 n))) n.

Definition zero_pad (width : nat) (digits : list ascii) : list ascii :=
  repeat "0"%char (width - List.length digits) ++ digits.

(** The format specification [0{width}X] of an f-string: upper-case
    hexadecimal, padded with zeros after the sign to [width]
    characters. *)
Definition format_0X (width : nat) (n : Z) : string :=
  if (n <? 0)%Z
  then String "-" (string_of_list_ascii (zero_pad (width - 1) (to_hex (- n))))
  else string_of_list_ascii (zero_pad width (to_hex n)).

(** [CHeaderWriter._write_u32_le(f, value)]: the text written to [f] *)
Definition _write_u32_le (value : Z) : string :=
  "    0x" ++ format_0X 2 (Z.land value 255) ++
  ", 0x" ++ format_0X 2 (Z.land (Z.shiftr value 8) 255) ++
  ", " ++
  "0x" ++ format_0X 2 (Z.land (Z.shiftr value 16) 255) ++
  ", 0x" ++ format_0X 2 (Z.land (Z.shiftr value 24) 255) ++
  "," ++ nl.

(** [generateMemFile(filename, new_img)] of [gray2mem.py]: the text
    written to the file *)
Definition generateMemFile (new_img : Np.ndarray) : string :=
  let h := Np.height new_img in
  let w := Np.width new_img in
  "@00000000" ++ nl ++
  format_0X 8 (Z.of_nat h) ++ nl ++
  format_0X 8 (Z.of_nat w) ++ nl ++
  concat "" (Np.tabulate h w
               (fun y x => format_0X 2 (Np.get new_img y x) ++ nl)).

(** The two characters of a byte literal: high digit, low digit *)
Definition byte_literal (b : Z) : string :=
  String (hex_char (b / 16)) (String (hex_char (b mod 16)) "").

(** Byte [i] of [value], counted from the least significant *)
Definition byte_of (value : Z) (i : Z) : Z := (value / 256 ^ i) mod 256.

(** The value of one hexadecimal digit, and of a row of them *)
Definition hex_digit_value (c : ascii) : option Z :=
  find (fun d => Ascii.eqb (hex_char d) c) (map Z.of_nat (seq 0 16)).

Definition hex_value (digits : list ascii) : option Z :=
  fold_left (fun acc c =>
               match acc, hex_digit_value c with
               | Some a, Some d => Some (16 * a + d)%Z
               | _, _ => None
               end) digits (Some 0%Z).

End Fmt.

(** * Properties *)

(** ** Row-major tables *)

Section Tabulate.

Context {A : Type}.

Lemma flat_rows_length (g : nat -> list A) (w : nat) (l : list nat) :
  (forall i, length (g i) = w) -> length (flat_map g l) = length l * w.
Proof.
  intros Hg; induction l as [|i l IH]; simpl; [reflexivity|].
  rewrite length_app, Hg, IH; reflexivity.
Qed.

Lemma tabulate_length (h w : nat) (f : nat -> nat -> A) :
  length (Np.tabulate h w f) = h * w.
Proof.
  unfold Np.tabulate.
  rewrite flat_rows_length with (w := w).
  - now rewrite length_seq.
  - intros i; now rewrite length_map, length_seq.
Qed.

Lemma flat_rows_nth (g : nat -> list A) (w : nat) (d : A) :
  (forall k, length (g k) = w) ->
  forall n s i j, i < n -> j < w ->
    nth (i * w + j) (flat_map g (seq s n)) d = nth j (g (s + i)) d.
Proof.
  intros Hg; induction n as [|n IH]; intros s i j Hi Hj; [lia|].
  simpl. destruct i as [|i].
  - rewrite app_nth1 by (rewrite Hg; lia).
    now rewrite Nat.add_0_r.
  - rewrite app_nth2 by (rewrite Hg; simpl; lia).
    rewrite Hg.
    replace (S i * w + j - w) with (i * w + j) by (simpl; lia).
    rewrite IH by lia.
    now replace (S s + i) with (s + S i) by lia.
Qed.

Lemma tabulate_nth (h w : nat) (f : nat -> nat -> A) (d : A) (i j : nat) :
  i < h -> j < w -> nth (i * w + j) (Np.tabulate h w f) d = f i j.
Proof.
  intros Hi Hj; unfold Np.tabulate.
  rewrite flat_rows_nth with (w := w); try assumption.
  - simpl. rewrite nth_indep with (d' := f i 0)
      by (now rewrite length_map, length_seq).
    rewrite map_nth, seq_nth by assumption; reflexivity.
  - intros k; now rewrite length_map, length_seq.
Qed.

Lemma tabulate_ext (h w : nat) (f g : nat -> nat -> A) :
  (forall i j, i < h -> j < w -> f i j = g i j) ->
  Np.tabulate h w f = Np.tabulate h w g.
Proof.
  intros E; unfold Np.tabulate.
  rewrite !flat_map_concat_map; f_equal.
  apply map_ext_in; intros i Hi; apply map_ext_in; intros j Hj.
  apply in_seq in Hi, Hj; apply E; lia.
Qed.

Lemma tabulate_of_nth (h w : nat) (l : list A) (d : A) :
  length l = h * w ->
  Np.tabulate h w (fun i j => nth (i * w + j) l d) = l.
Proof.
  intros Hl.
  apply nth_ext with (d := d) (d' := d).
  - now rewrite tabulate_length.
  - intros n Hn; rewrite tabulate_length in Hn.
    assert (Hw : w <> 0) by (intros ->; lia).
    assert (Hq : n / w < h)
      by (apply Nat.Div0.div_lt_upper_bound; lia).
    assert (Hr : n mod w < w) by (now apply Nat.mod_upper_bound).
    assert (En : n = n / w * w + n mod w)
      by (rewrite (Nat.div_mod_eq n w) at 1; lia).
    rewrite En at 1.
    rewrite tabulate_nth by assumption.
    now rewrite <- En.
Qed.

End Tabulate.

(** ** Arrays built from an index function *)

Lemma get_build (h w : nat) (f : nat -> nat -> Z) (i j : nat) :
  i < h -> j < w -> Np.get (Np.build h w f) i j = f i j.
Proof.
  intros Hi Hj; unfold Np.get, Np.build, Np.width; simpl.
  now apply tabulate_nth.
Qed.

Lemma build_ext (h w : nat) (f g : nat -> nat -> Z) :
  (forall i j, i < h -> j < w -> f i j = g i j) ->
  Np.build h w f = Np.build h w g.
Proof.
  intros E; unfold Np.build; f_equal; now apply tabulate_ext.
Qed.

Lemma build_get (m : Np.ndarray) :
  Np.well_shaped m -> Np.build (Np.height m) (Np.width m) (Np.get m) = m.
Proof.
  unfold Np.well_shaped, Np.build, Np.get.
  destruct m as [[h w] l]; unfold Np.height, Np.width; simpl; intros Hl.
  f_equal; now apply tabulate_of_nth.
Qed.

Lemma well_shaped_build (h w : nat) (f : nat -> nat -> Z) :
  Np.well_shaped (Np.build h w f).
Proof.
  unfold Np.well_shaped, Np.build, Np.height, Np.width; simpl.
  apply tabulate_length.
Qed.

Lemma height_build (h w : nat) (f : nat -> nat -> Z) :
  Np.height (Np.build h w f) = h.
Proof. reflexivity. Qed.

Lemma width_build (h w : nat) (f : nat -> nat -> Z) :
  Np.width (Np.build h w f) = w.
Proof. reflexivity. Qed.

(** Push [get] through the flips and the transpose, then compare index
    functions on the range of the shape. *)
Ltac np_unfold :=
  unfold Np.fliplr, Np.flipud, Np.transpose;
  repeat match goal with
  | |- context [Np.height (Np.build ?h ?w ?f)] =>
      change (Np.height (Np.build h w f)) with h
  | |- context [Np.width (Np.build ?h ?w ?f)] =>
      change (Np.width (Np.build h w f)) with w
  end.

Ltac np_pointwise Hm :=
  np_unfold;
  etransitivity; [| exact (build_get _ Hm)];
  apply build_ext; intros;
  repeat rewrite get_build by lia;
  f_equal; lia.

(** ** The transforms *)

Lemma rot90_cw (m : Np.ndarray) :
  Np.rot90 m (-1) = Np.fliplr (Np.transpose m).
Proof. reflexivity. Qed.

Lemma rot90_ccw (m : Np.ndarray) :
  Np.rot90 m 1 = Np.transpose (Np.fliplr m).
Proof. reflexivity. Qed.

Lemma rot90_180 (m : Np.ndarray) :
  Np.rot90 m 2 = Np.fliplr (Np.flipud m).
Proof. reflexivity. Qed.

Lemma rot_cw_shape (m : Np.ndarray) :
  Np.shape (Np.rot90 m (-1)) = (Np.width m, Np.height m).
Proof. reflexivity. Qed.

Lemma rot_cw_get (m : Np.ndarray) (y x : nat) :
  y < Np.height m -> x < Np.width m ->
  Np.get (Np.rot90 m (-1)) x (Np.height m - 1 - y) = Np.get m y x.
Proof.
  intros Hy Hx; rewrite rot90_cw; np_unfold.
  repeat rewrite get_build by lia.
  f_equal; lia.
Qed.

Lemma rot_ccw_cw (m : Np.ndarray) :
  Np.well_shaped m -> Np.rot90 (Np.rot90 m (-1)) 1 = m.
Proof. intros Hm; rewrite rot90_cw, rot90_ccw; np_pointwise Hm. Qed.

Lemma rot_cw_ccw (m : Np.ndarray) :
  Np.well_shaped m -> Np.rot90 (Np.rot90 m 1) (-1) = m.
Proof. intros Hm; rewrite rot90_cw, rot90_ccw; np_pointwise Hm. Qed.

Lemma rot_180_180 (m : Np.ndarray) :
  Np.well_shaped m -> Np.rot90 (Np.rot90 m 2) 2 = m.
Proof. intros Hm; rewrite !rot90_180; np_pointwise Hm. Qed.

Lemma fliplr_fliplr (m : Np.ndarray) :
  Np.well_shaped m -> Np.fliplr (Np.fliplr m) = m.
Proof. intros Hm; np_pointwise Hm. Qed.

Lemma flipud_flipud (m : Np.ndarray) :
  Np.well_shaped m -> Np.flipud (Np.flipud m) = m.
Proof. intros Hm; np_pointwise Hm. Qed.

(** ** The similarity score *)

Lemma list_prod_flat_map {A B : Type} (l : list A) (l' : list B) :
  list_prod l l' = flat_map (fun x => map (fun y => (x, y)) l') l.
Proof. induction l as [|x l IH]; simpl; [reflexivity|now rewrite IH]. Qed.

Lemma tabulate_positions {A : Type} (h w : nat) (f : nat -> nat -> A) :
  Np.tabulate h w f = map (fun p => f (fst p) (snd p)) (positions h w).
Proof.
  unfold Np.tabulate, positions; rewrite list_prod_flat_map.
  induction (seq 0 h) as [|i l IH]; simpl; [reflexivity|].
  rewrite map_app, map_map, IH; reflexivity.
Qed.

Lemma positions_length (h w : nat) : length (positions h w) = h * w.
Proof. unfold positions; now rewrite length_prod, !length_seq. Qed.

Lemma sum_bool_filter {A : Type} (g : A -> bool) (l : list A) :
  Np.sum_bool (map g l) = Z.of_nat (length (filter g l)).
Proof.
  induction l as [|x l IH]; simpl; [reflexivity|].
  rewrite IH; destruct (g x); simpl length; lia.
Qed.

Lemma sum_equal_matching (a b : Np.ndarray) :
  Np.sum_bool (Np.equal a b) = Z.of_nat (matching_positions a b).
Proof.
  unfold Np.equal, matching_positions.
  now rewrite tabulate_positions, sum_bool_filter.
Qed.

(** An array without pixels has no matching position, so the only
    division by zero in [calculate_similarity] is 0/0. *)
Lemma no_pixel_no_match (a b : Np.ndarray) :
  Np.size a = 0 -> Np.sum_bool (Np.equal a b) = 0%Z.
Proof.
  intros Hs.
  assert (Hl : length (Np.equal a b) = 0)
    by (unfold Np.equal; rewrite tabulate_length; exact Hs).
  destruct (Np.equal a b); [reflexivity|discriminate].
Qed.

Lemma matching_le_size (a b : Np.ndarray) :
  matching_positions a b <= Np.size a.
Proof.
  unfold matching_positions, Np.size.
  rewrite <- positions_length; apply filter_length_le.
Qed.

Lemma shape_eqb_true (a b : Np.ndarray) :
  Np.shape_eqb a b = true <->
  Np.height a = Np.height b /\ Np.width a = Np.width b.
Proof.
  unfold Np.shape_eqb; rewrite andb_true_iff, !Nat.eqb_eq; tauto.
Qed.

Lemma shape_eqb_false (a b : Np.ndarray) :
  Np.shape_eqb a b = false <->
  Np.height a <> Np.height b \/ Np.width a <> Np.width b.
Proof.
  unfold Np.shape_eqb; rewrite andb_false_iff, !Nat.eqb_neq; tauto.
Qed.

Lemma shape_eqb_refl (a : Np.ndarray) : Np.shape_eqb a a = true.
Proof. apply shape_eqb_true; split; reflexivity. Qed.

(** The score of two arrays of one shape, as the code computes it *)
Lemma similarity_same_shape (a b : Np.ndarray) :
  Np.shape_eqb a b = true ->
  calculate_similarity (PyArr a) (PyArr b) =
  Ok (py_mul (Np.true_divide (Z.of_nat (matching_positions a b))
                (Z.of_nat (Np.size a))) 100).
Proof.
  intros E; unfold calculate_similarity; rewrite E; simpl.
  now rewrite sum_equal_matching.
Qed.

Lemma percent_value (c t : nat) :
  0 < t ->
  py_mul (Np.true_divide (Z.of_nat c) (Z.of_nat t)) 100 =
  Fl (Qred (Qred (inject_Z (Z.of_nat c) / inject_Z (Z.of_nat t)) * 100)).
Proof.
  intros Ht; unfold Np.true_divide.
  destruct (Z.eqb_spec (Z.of_nat t) 0) as [E|_]; [lia|reflexivity].
Qed.

Lemma percent_Qeq (c t : nat) :
  (Qred (Qred (inject_Z (Z.of_nat c) / inject_Z (Z.of_nat t)) * 100) ==
   inject_Z (Z.of_nat c) / inject_Z (Z.of_nat t) * 100)%Q.
Proof. now rewrite !Qred_correct. Qed.

Lemma percent_bounds (c t : nat) :
  0 < t -> c <= t ->
  (0 <= inject_Z (Z.of_nat c) / inject_Z (Z.of_nat t) * 100 <= 100)%Q.
Proof.
  intros Ht Hc.
  assert (Ht' : (0 < inject_Z (Z.of_nat t))%Q)
    by (change 0%Q with (inject_Z 0); rewrite <- Zlt_Qlt; lia).
  assert (H0 : (0 <= inject_Z (Z.of_nat c) / inject_Z (Z.of_nat t))%Q).
  { apply Qle_shift_div_l; [assumption|].
    rewrite Qmult_0_l; change 0%Q with (inject_Z 0); rewrite <- Zle_Qle; lia. }
  assert (H1 : (inject_Z (Z.of_nat c) / inject_Z (Z.of_nat t) <= 1)%Q).
  { apply Qle_shift_div_r; [assumption|].
    rewrite Qmult_1_l, <- Zle_Qle; lia. }
  split.
  - apply Qmult_le_0_compat; [assumption|discriminate].
  - setoid_replace 100%Q with (1 * 100)%Q at 2 by reflexivity.
    apply Qmult_le_compat_r; [assumption|discriminate].
Qed.

(** ** The sweep over the hypotheses *)

Lemma test_transformation_scored (self : ImageComparator) (st : sweep_state)
    (tr : transformation) (similarity : pyfloat) :
  attempt self tr = Ok similarity ->
  exists st', test_transformation self st tr = Ok st' /\
    results st' = results st ++ [(fst tr, similarity)] /\
    running_best st' = keep_best (running_best st) (fst tr, similarity) /\
    length (stdout st') = S (length (stdout st)).
Proof.
  destruct tr as [trans_type trans_func].
  unfold attempt, test_transformation, running_best, keep_best; simpl.
  destruct (trans_func (original_img self)) as [transformed|e]; simpl;
    [|discriminate].
  intros ->; simpl.
  destruct (py_gt similarity (best_similarity st)); simpl;
    eexists; (split; [reflexivity|]); simpl;
    rewrite length_app; simpl; repeat split; lia.
Qed.

Lemma test_transformation_raised (self : ImageComparator) (st : sweep_state)
    (tr : transformation) (e : exn) :
  attempt self tr = Raise e ->
  test_transformation self st tr =
  Ok (mk_sweep (best_match st) (best_similarity st) (results st)
        (stdout st ++ [Errored (fst tr) e])).
Proof.
  destruct tr as [trans_type trans_func].
  unfold attempt, test_transformation; simpl.
  destruct (trans_func (original_img self)) as [transformed|e']; simpl.
  - intros ->; reflexivity.
  - intros [= ->]; reflexivity.
Qed.

Lemma for_each_sweep (self : ImageComparator) (trs : list transformation) :
  forall st, exists st',
    for_each trs (test_transformation self) st = Ok st' /\
    results st' = results st ++ scored self trs /\
    running_best st' = fold_left keep_best (scored self trs) (running_best st) /\
    length (stdout st') = length (stdout st) + length trs.
Proof.
  induction trs as [|tr trs IH]; intros st; simpl.
  - exists st; rewrite app_nil_r; repeat split; lia.
  - destruct (attempt self tr) as [similarity|e] eqn:E.
    + destruct (test_transformation_scored self st tr _ E)
        as (st1 & -> & Hr & Hb & Hl); simpl.
      destruct (IH st1) as (st' & -> & Hr' & Hb' & Hl').
      exists st'; split; [reflexivity|].
      rewrite Hr', Hr, Hb', Hb, Hl', Hl, <- app_assoc; simpl.
      repeat split; lia.
    + rewrite (test_transformation_raised self st tr _ E); simpl.
      destruct (IH (mk_sweep (best_match st) (best_similarity st) (results st)
                      (stdout st ++ [Errored (fst tr) e])))
        as (st' & -> & Hr' & Hb' & Hl').
      simpl in Hr', Hb', Hl'; rewrite length_app in Hl'; simpl in Hl'.
      exists st'; split; [reflexivity|].
      rewrite Hr', Hb'; repeat split; lia.
Qed.

Lemma detect_transformation_scored (self : ImageComparator) :
  exists v, detect_transformation self = Ok v /\
    allResults v = scored self transformations /\
    (bestKind v, bestScore v) =
      fold_left keep_best (scored self transformations) (UNKNOWN, Fl 0).
Proof.
  unfold detect_transformation, sweep.
  destruct (for_each_sweep self transformations sweep_init)
    as (st & -> & Hr & Hb & _); simpl.
  eexists; split; [reflexivity|]; split; assumption.
Qed.

(** ** Order facts on scores *)

Lemma Qltb_lt (a b : Q) : Qltb a b = true <-> (a < b)%Q.
Proof.
  unfold Qltb; rewrite negb_true_iff; split.
  - intros H; apply Qnot_le_lt; intros L.
    apply Qle_bool_iff in L; congruence.
  - intros H; destruct (Qle_bool b a) eqn:E; [|reflexivity].
    apply Qle_bool_iff in E; exfalso; exact (Qlt_not_le _ _ H E).
Qed.

Lemma py_gt_Fl (r : pyfloat) (b : Q) :
  py_gt r (Fl b) = true -> exists q, r = Fl q /\ (b < q)%Q.
Proof.
  destruct r as [|q]; simpl; [discriminate|].
  intros H; exists q; split; [reflexivity|now apply Qltb_lt].
Qed.

Lemma py_gt_trans (s : pyfloat) (q b : Q) :
  py_gt s (Fl q) = true -> (b < q)%Q -> py_gt s (Fl b) = true.
Proof.
  intros H Hb; apply py_gt_Fl in H as (x & -> & Hx); simpl.
  apply Qltb_lt; now apply Qlt_trans with q.
Qed.

Lemma py_gt_not_ge (s : pyfloat) (q : Q) :
  py_gt s (Fl q) = true -> py_ge (Fl q) s = false.
Proof.
  intros H; apply py_gt_Fl in H as (x & -> & Hx); simpl.
  destruct (Qle_bool x q) eqn:E; [|reflexivity].
  apply Qle_bool_iff in E; exfalso; exact (Qlt_not_le _ _ Hx E).
Qed.

Lemma py_not_gt_below (r s : pyfloat) (b : Q) :
  py_gt r (Fl b) = false -> py_gt s (Fl b) = true -> py_ge r s = false.
Proof.
  intros Hr Hs; apply py_gt_Fl in Hs as (x & -> & Hx).
  destruct r as [|q]; simpl in *; [reflexivity|].
  destruct (Qle_bool x q) eqn:E; [|reflexivity].
  apply Qle_bool_iff in E.
  assert (L : (b < q)%Q) by (now apply Qlt_le_trans with x).
  apply Qltb_lt in L; congruence.
Qed.

(** ** The running best of a list of scored hypotheses *)

(** Either nothing beat the initial best, or the final best is an entry
    of the list that beat it, every entry before it scores strictly less
    and no entry after it scores more. *)
Lemma keep_best_fold (rs : list (TransformType * pyfloat)) :
  forall (bm : TransformType) (b : Q) (best : TransformType * pyfloat),
    best = fold_left keep_best rs (bm, Fl b) ->
    (best = (bm, Fl b) /\
     Forall (fun r => py_gt (snd r) (Fl b) = false) rs) \/
    (exists l1 l2, rs = l1 ++ best :: l2 /\
       py_gt (snd best) (Fl b) = true /\
       Forall (fun r => py_ge (snd r) (snd best) = false) l1 /\
       Forall (fun r => py_gt (snd r) (snd best) = false) l2).
Proof.
  induction rs as [|r rs IH]; intros bm b best Hbest; simpl in Hbest.
  - left; split; [assumption|constructor].
  - unfold keep_best at 2 in Hbest; simpl in Hbest.
    destruct (py_gt (snd r) (Fl b)) eqn:E.
    + destruct r as [t s]; simpl in E.
      destruct (py_gt_Fl _ _ E) as (q & -> & Hq).
      destruct (IH t q best Hbest)
        as [[-> Hrest] | (l1 & l2 & -> & Hgt & H1 & H2)].
      * right; exists [], rs; repeat split; try assumption; constructor.
      * right; exists ((t, Fl q) :: l1), l2; repeat split; try assumption.
        -- now apply py_gt_trans with q.
        -- constructor; [now apply py_gt_not_ge|assumption].
    + destruct (IH bm b best Hbest)
        as [[-> Hrest] | (l1 & l2 & -> & Hgt & H1 & H2)].
      * left; split; [reflexivity|now constructor].
      * right; exists (r :: l1), l2; repeat split; try assumption.
        constructor; [now apply py_not_gt_below with b|assumption].
Qed.

Lemma py_ge_false_gt (r s : pyfloat) :
  py_ge r s = false -> py_gt r s = false.
Proof.
  destruct r as [|a], s as [|b]; simpl; try reflexivity.
  intros H; unfold Qltb; apply negb_false_iff, Qle_bool_iff.
  apply Qlt_le_weak, Qnot_le_lt; intros L.
  apply Qle_bool_iff in L; congruence.
Qed.

Lemma py_gt_irrefl (s : pyfloat) : py_gt s s = false.
Proof.
  destruct s as [|a]; simpl; [reflexivity|].
  unfold Qltb; apply negb_false_iff, Qle_bool_iff, Qle_refl.
Qed.

(** ** The sweep on two loaded arrays *)

Lemma calculate_similarity_arrays (a b : Np.ndarray) :
  calculate_similarity (PyArr a) (PyArr b) = Ok (similarity_of a b).
Proof.
  unfold similarity_of, calculate_similarity.
  destruct (negb (Np.shape_eqb a b)); reflexivity.
Qed.

Lemma scored_loaded (a b : Np.ndarray) (thr : Q) :
  scored (loaded a b thr) transformations =
  [ (IDENTICAL, similarity_of a b);
    (ROTATE_CW, similarity_of (Np.rot90 a (-1)) b);
    (ROTATE_CCW, similarity_of (Np.rot90 a 1) b);
    (ROTATE_180, similarity_of (Np.rot90 a 2) b);
    (MIRROR_H, similarity_of (Np.fliplr a) b);
    (MIRROR_V, similarity_of (Np.flipud a) b) ].
Proof.
  unfold scored, transformations, attempt, loaded.
  cbn [flat_map fst snd original_img transformed_img].
  unfold apply_rotate_cw, apply_rotate_ccw, apply_rotate_180, apply_mirror_h,
    apply_mirror_v, np_rot90, np_fliplr, np_flipud.
  cbn [bind]; rewrite !calculate_similarity_arrays; reflexivity.
Qed.


Lemma detect_loaded (a b : Np.ndarray) (thr : Q) :
  exists v, detect_transformation (loaded a b thr) = Ok v /\
    map fst (allResults v) = declaration_order /\
    ((bestKind v = UNKNOWN /\ bestScore v = Fl 0 /\
      Forall (fun r => py_gt (snd r) (Fl 0) = false) (allResults v)) \/
     (exists l1 l2,
        allResults v = l1 ++ (bestKind v, bestScore v) :: l2 /\
        py_gt (bestScore v) (Fl 0) = true /\
        Forall (fun r => py_ge (snd r) (bestScore v) = false) l1 /\
        Forall (fun r => py_gt (snd r) (bestScore v) = false) l2)).
Proof.
  destruct (detect_transformation_scored (loaded a b thr))
    as (v & Hv & Hr & Hb).
  exists v; split; [assumption|]; split.
  - rewrite Hr, scored_loaded; reflexivity.
  - rewrite Hr.
    destruct (keep_best_fold _ UNKNOWN 0 (bestKind v, bestScore v) Hb)
      as [[E Hall] | (l1 & l2 & E & Hgt & H1 & H2)].
    + left; injection E as -> ->; repeat split; assumption.
    + right; exists l1, l2; repeat split; assumption.
Qed.

(** ** Claims on the detection engine *)

(** C1 (as amended).  For two loaded arrays [detect_transformation]
    returns six results and a best score that no hypothesis exceeds.  The
    running best starts at 0.0 with kind UNKNOWN, and 0.0 is itself a
    score a hypothesis can get: when no hypothesis scores above 0 the
    verdict is UNKNOWN with score 0; otherwise the verdict is one of the
    six results, of positive score, and its kind is not UNKNOWN. *)
Theorem detect_best_is_maximum_above_zero (a b : Np.ndarray) (thr : Q) :
  exists v, detect_transformation (loaded a b thr) = Ok v /\
    length (allResults v) = 6 /\
    Forall (fun r => py_gt (snd r) (bestScore v) = false) (allResults v) /\
    ((bestKind v = UNKNOWN /\ bestScore v = Fl 0 /\
      Forall (fun r => py_gt (snd r) (Fl 0) = false) (allResults v)) \/
     (bestKind v <> UNKNOWN /\
      In (bestKind v, bestScore v) (allResults v) /\
      py_gt (bestScore v) (Fl 0) = true)).
Proof.
  destruct (detect_loaded a b thr) as (v & Hv & Hk & Hbest).
  exists v; split; [assumption|]; split.
  { rewrite <- (length_map fst), Hk; reflexivity. }
  destruct Hbest as [(Ek & Es & Hall) | (l1 & l2 & E & Hgt & H1 & H2)].
  - split; [now rewrite Es|left; repeat split; assumption].
  - assert (Hin : In (bestKind v, bestScore v) (allResults v))
      by (rewrite E; apply in_elt).
    split.
    + rewrite E; apply Forall_app; split.
      * eapply Forall_impl; [|exact H1].
        intros r Hr; now apply py_ge_false_gt.
      * constructor; [apply py_gt_irrefl|assumption].
    + right; repeat split; try assumption.
      apply (in_map fst) in Hin; rewrite Hk in Hin; simpl in Hin.
      intros EU; rewrite EU in Hin.
      repeat (destruct Hin as [Hin|Hin]; [discriminate|]); exact Hin.
Qed.

(** C1, counterexample.  A 1x1 image [[0]] against [[1]]: every
    hypothesis scores 0, the maximum, and the verdict is UNKNOWN, not the
    first-declared hypothesis. *)
Lemma all_zero_scores_yield_unknown :
  exists v,
    detect_transformation
      (loaded (Np.mk_ndarray (1, 1) [0%Z]) (Np.mk_ndarray (1, 1) [1%Z])
         (95 # 100)) = Ok v /\
    map snd (allResults v) = [Fl 0; Fl 0; Fl 0; Fl 0; Fl 0; Fl 0] /\
    bestKind v = UNKNOWN /\ bestKind v <> IDENTICAL.
Proof.
  eexists; split; [vm_compute; reflexivity|].
  repeat split; discriminate.
Qed.

(** C2 (as amended).  Each iteration appends its result and replaces the
    running best exactly when the new score is strictly greater; a raising
    hypothesis changes neither.  For two loaded arrays the results come in
    the declaration order, and whenever some hypothesis scores above 0 the
    verdict is the earliest result with the greatest score: every result
    before it scores strictly less, none after it scores more.  A tie at
    score 0 leaves the initial UNKNOWN. *)
Theorem detect_order_and_tie_break (a b : Np.ndarray) (thr : Q) :
  (forall st tr, exists st',
     test_transformation (loaded a b thr) st tr = Ok st' /\
     match attempt (loaded a b thr) tr with
     | Ok similarity =>
         results st' = results st ++ [(fst tr, similarity)] /\
         running_best st' =
           (if py_gt similarity (best_similarity st)
            then (fst tr, similarity) else running_best st)
     | Raise _ =>
         results st' = results st /\ running_best st' = running_best st
     end) /\
  exists v, detect_transformation (loaded a b thr) = Ok v /\
    map fst (allResults v) =
      [IDENTICAL; ROTATE_CW; ROTATE_CCW; ROTATE_180; MIRROR_H; MIRROR_V] /\
    ((bestKind v = UNKNOWN /\
      Forall (fun r => py_gt (snd r) (Fl 0) = false) (allResults v)) \/
     (exists l1 l2,
        allResults v = l1 ++ (bestKind v, bestScore v) :: l2 /\
        py_gt (bestScore v) (Fl 0) = true /\
        Forall (fun r => py_ge (snd r) (bestScore v) = false) l1 /\
        Forall (fun r => py_gt (snd r) (bestScore v) = false) l2)).
Proof.
  split.
  - intros st tr.
    destruct (attempt (loaded a b thr) tr) as [similarity|e] eqn:E.
    + destruct (test_transformation_scored _ st tr _ E)
        as (st' & Hst & Hr & Hb & _).
      exists st'; repeat split; assumption.
    + rewrite (test_transformation_raised _ st tr _ E).
      eexists; repeat split; reflexivity.
  - destruct (detect_loaded a b thr) as (v & Hv & Hk & Hbest).
    exists v; repeat split; try assumption.
    destruct Hbest as [(Ek & _ & Hall) | Hsplit]; [left|right]; tauto.
Qed.

(** C2, counterexample.  A 1x2 image [[1,2]] against [[3,4]]: the six
    hypotheses tie at score 0 and the earliest-declared one does not win
    the tie; the verdict stays UNKNOWN. *)
Lemma tie_at_zero_not_won_by_first :
  exists v,
    detect_transformation
      (loaded (Np.mk_ndarray (1, 2) [1; 2]%Z) (Np.mk_ndarray (1, 2) [3; 4]%Z)
         (95 # 100)) = Ok v /\
    allResults v =
      [(IDENTICAL, Fl 0); (ROTATE_CW, Fl 0); (ROTATE_CCW, Fl 0);
       (ROTATE_180, Fl 0); (MIRROR_H, Fl 0); (MIRROR_V, Fl 0)] /\
    bestKind v <> IDENTICAL.
Proof.
  eexists; split; [vm_compute; reflexivity|].
  split; [reflexivity|discriminate].
Qed.

(** C4 (as amended).  A hypothesis whose transform or scoring raises is
    caught: the sweep prints an error line, leaves [results] and the
    running best as they were, and goes on.  So over any list of
    hypotheses the sweep returns, prints one line per hypothesis, and
    [results] holds exactly the hypotheses that did not raise, in order,
    with no entry for the others.  On two loaded arrays no hypothesis
    raises and the verdict lists the six kinds. *)
Theorem sweep_isolates_raising_hypotheses :
  (forall self st tr e,
     attempt self tr = Raise e ->
     test_transformation self st tr =
     Ok (mk_sweep (best_match st) (best_similarity st) (results st)
           (stdout st ++ [Errored (fst tr) e]))) /\
  (forall self trs, exists st,
     sweep self trs = Ok st /\
     results st = scored self trs /\
     length (stdout st) = length trs) /\
  (forall a b thr, exists v,
     detect_transformation (loaded a b thr) = Ok v /\
     map fst (allResults v) = declaration_order /\
     length (allResults v) = 6).
Proof.
  split; [exact test_transformation_raised|split].
  - intros self trs; unfold sweep.
    destruct (for_each_sweep self trs sweep_init)
      as (st & Hst & Hr & _ & Hl).
    exists st; repeat split; assumption.
  - intros a b thr.
    destruct (detect_loaded a b thr) as (v & Hv & Hk & _).
    exists v; repeat split; try assumption.
    rewrite <- (length_map fst), Hk; reflexivity.
Qed.

Lemma sweep_isolates_raising_hypotheses_witness :
  test_transformation (mk_comparator PyNone PyNone (95 # 100)) sweep_init
    (ROTATE_CW, apply_rotate_cw) =
  Ok (mk_sweep UNKNOWN (Fl 0) [] [Errored ROTATE_CW ValueError]).
Proof.
  apply (proj1 sweep_isolates_raising_hypotheses
           (mk_comparator PyNone PyNone (95 # 100)) sweep_init
           (ROTATE_CW, apply_rotate_cw) ValueError).
  reflexivity.
Defined.

(** C4, counterexample.  With the original image not loaded every
    hypothesis raises; each is caught, and the verdict comes back with an
    empty results sequence: no zero score was recorded for any of them. *)
Lemma raising_hypotheses_leave_no_result :
  map (attempt (mk_comparator PyNone (PyArr example4x4) (95 # 100)))
    transformations =
    [Raise AttributeError; Raise ValueError; Raise ValueError;
     Raise ValueError; Raise ValueError; Raise ValueError] /\
  detect_transformation (mk_comparator PyNone (PyArr example4x4) (95 # 100)) =
    Ok (UNKNOWN, Fl 0, []).
Proof. split; reflexivity. Qed.


(** The threshold does change what the sweep prints. *)
Example threshold_changes_printed_status :
  sweep (loaded example4x4 example4x4_cw (95 # 100)) transformations <>
  sweep (loaded example4x4 example4x4_cw (20 # 100)) transformations.
Proof. vm_compute; discriminate. Qed.

(** ** Claims on the scorer *)

(** C5.  [calculate_similarity] returns 0.0, and does not raise, when the
    two arrays differ in height or in width.  For one shape it returns
    the number of positions holding equal integers, divided by the number
    of positions, times 100, as the interpreter computes it: the count
    and the size become doubles, the quotient is rounded, and so is the
    product. *)
Theorem calculate_similarity_exact_match_percentage (a b : Np.ndarray) :
  (Np.height a <> Np.height b \/ Np.width a <> Np.width b ->
   Float64.calculate_similarity (PyArr a) (PyArr b) = Ok 0%float) /\
  (Np.height a = Np.height b -> Np.width a = Np.width b ->
   Float64.calculate_similarity (PyArr a) (PyArr b) =
     Ok (PrimFloat.mul
           (PrimFloat.div
              (PrimFloat.of_uint63
                 (Uint63.of_Z (Z.of_nat (matching_positions a b))))
              (PrimFloat.of_uint63 (Uint63.of_Z (Z.of_nat (Np.size a)))))
           100%float)).
Proof.
  split.
  - intros H; apply shape_eqb_false in H.
    unfold Float64.calculate_similarity; now rewrite H.
  - intros Hh Hw.
    assert (E : Np.shape_eqb a b = true) by (now apply shape_eqb_true).
    unfold Float64.calculate_similarity; rewrite E; cbn [negb].
    now rewrite sum_equal_matching.
Qed.

Lemma calculate_similarity_exact_match_percentage_witness :
  Float64.calculate_similarity (PyArr example4x4)
    (PyArr (Np.mk_ndarray (2, 8) (Np.data example4x4))) = Ok 0%float /\
  Float64.calculate_similarity (PyArr example4x4) (PyArr example4x4_cw) =
    Ok (PrimFloat.mul
          (PrimFloat.div
             (PrimFloat.of_uint63
                (Uint63.of_Z
                   (Z.of_nat (matching_positions example4x4 example4x4_cw))))
             (PrimFloat.of_uint63
                (Uint63.of_Z (Z.of_nat (Np.size example4x4)))))
          100%float).
Proof.
  split.
  - apply (proj1 (calculate_similarity_exact_match_percentage example4x4
                    (Np.mk_ndarray (2, 8) (Np.data example4x4)))).
    left; vm_compute; lia.
  - apply (proj2 (calculate_similarity_exact_match_percentage
                    example4x4 example4x4_cw)); reflexivity.
Defined.

(** The rounding shows: 11 equal pixels out of 20 score
    55.00000000000001, the double next above 55, and 1 out of 3 scores
    33.33333333333333. *)
Example eleven_of_twenty :
  Float64.calculate_similarity
    (PyArr (Np.mk_ndarray (4, 5)
              [1;1;1;1;1; 1;1;1;1;1; 1;0;0;0;0; 0;0;0;0;0]%Z))
    (PyArr (Np.mk_ndarray (4, 5)
              [1;1;1;1;1; 1;1;1;1;1; 1;9;9;9;9; 9;9;9;9;9]%Z)) =
    Ok 0x1.b800000000001p+5%float /\
  PrimFloat.next_up 55%float = 0x1.b800000000001p+5%float /\
  Float64.calculate_similarity
    (PyArr (Np.mk_ndarray (1, 3) [7; 0; 0]%Z))
    (PyArr (Np.mk_ndarray (1, 3) [7; 1; 1]%Z)) =
    Ok 0x1.0aaaaaaaaaaaap+5%float.
Proof. repeat split; vm_compute; reflexivity. Qed.

(** An image against itself scores exactly 100.0, and two arrays of one
    shape without pixels score nan. *)
Example doubles_at_the_ends :
  Float64.calculate_similarity (PyArr example4x4) (PyArr example4x4) =
    Ok 100%float /\
  Float64.calculate_similarity (PyArr (Np.mk_ndarray (0, 3) []))
    (PyArr (Np.mk_ndarray (0, 3) [])) = Ok PrimFloat.nan.
Proof. split; vm_compute; reflexivity. Qed.

(** The exact score and the double are taken from the same two integers:
    the number of matching positions and the size. *)
Lemma similarity_readings (a b : Np.ndarray) :
  Np.shape_eqb a b = true ->
  calculate_similarity (PyArr a) (PyArr b) =
    Ok (py_mul (Np.true_divide (Z.of_nat (matching_positions a b))
                  (Z.of_nat (Np.size a))) 100) /\
  Float64.calculate_similarity (PyArr a) (PyArr b) =
    Ok (PrimFloat.mul
          (PrimFloat.div (Float64.of_int (Z.of_nat (matching_positions a b)))
             (Float64.of_int (Z.of_nat (Np.size a))))
          100%float).
Proof.
  intros E; split; [now apply similarity_same_shape|].
  unfold Float64.calculate_similarity; rewrite E; cbn [negb].
  now rewrite sum_equal_matching.
Qed.

(** Equality is exact: values one apart do not match. *)
Example no_tolerance :
  Float64.calculate_similarity (PyArr (Np.mk_ndarray (1, 2) [10; 20]%Z))
    (PyArr (Np.mk_ndarray (1, 2) [10; 21]%Z)) = Ok 50%float.
Proof. vm_compute; reflexivity. Qed.

(** C10.  For two arrays of one shape with at least one pixel the score
    is a number between 0 and 100.  The pixel is needed: the division has
    no guard, and an array without pixels scores nan against itself. *)
Theorem similarity_in_range_needs_a_pixel (a b : Np.ndarray) :
  (Np.shape_eqb a b = true -> 0 < Np.size a ->
   exists q, calculate_similarity (PyArr a) (PyArr b) = Ok (Fl q) /\
     (0 <= q <= 100)%Q) /\
  (Np.size a = 0 -> calculate_similarity (PyArr a) (PyArr a) = Ok NaN).
Proof.
  split.
  - intros E Hs; rewrite (similarity_same_shape a b E).
    rewrite percent_value by assumption.
    eexists; split; [reflexivity|].
    rewrite percent_Qeq.
    apply percent_bounds; [assumption|apply matching_le_size].
  - intros Hs; rewrite (similarity_same_shape a a (shape_eqb_refl a)).
    unfold Np.true_divide; rewrite Hs; reflexivity.
Qed.

Lemma similarity_in_range_needs_a_pixel_witness :
  (exists q,
     calculate_similarity (PyArr example4x4) (PyArr example4x4_cw) = Ok (Fl q) /\
     (0 <= q <= 100)%Q) /\
  calculate_similarity (PyArr (Np.mk_ndarray (0, 3) []))
    (PyArr (Np.mk_ndarray (0, 3) [])) = Ok NaN.
Proof.
  split.
  - apply (proj1 (similarity_in_range_needs_a_pixel example4x4 example4x4_cw));
      [reflexivity|vm_compute; lia].
  - apply (proj2 (similarity_in_range_needs_a_pixel
                    (Np.mk_ndarray (0, 3) []) example4x4)).
    reflexivity.
Defined.

(** ** Claims on the transforms *)

(** C7.  [apply_rotate_cw] turns an h by w array into a w by h array
    with [out[x, h-1-y] = in[y, x]]; it turns the 4x4 example into the
    expected array, and detecting that pair with threshold 0.95 gives
    ROTATE_CW at 100, reported by [compare] as detected, mode 0. *)
Theorem rotate_cw_quarter_turn :
  (forall m, exists out,
     apply_rotate_cw (PyArr m) = Ok (PyArr out) /\
     Np.shape out = (Np.width m, Np.height m) /\
     Np.well_shaped out /\
     forall y x, y < Np.height m -> x < Np.width m ->
       Np.get out x (Np.height m - 1 - y) = Np.get m y x) /\
  apply_rotate_cw (PyArr example4x4) = Ok (PyArr example4x4_cw) /\
  (exists rs,
     detect_transformation (loaded example4x4 example4x4_cw (95 # 100)) =
       Ok (ROTATE_CW, Fl 100, rs)) /\
  compare (loaded example4x4 example4x4_cw (95 # 100)) false =
    Ok (ROTATE_CW, Detected ROTATE_CW (Fl 100) (Some 0%Z)).
Proof.
  split; [|split; [reflexivity|split; [eexists|]; vm_compute; reflexivity]].
  intros m; exists (Np.rot90 m (-1)).
  split; [reflexivity|]; split; [apply rot_cw_shape|]; split.
  - rewrite rot90_cw; apply well_shaped_build.
  - intros y x; apply rot_cw_get.
Qed.

Lemma rotate_cw_quarter_turn_witness :
  exists out,
    apply_rotate_cw (PyArr example4x4) = Ok (PyArr out) /\
    Np.get out 1 (4 - 1 - 2) = Np.get example4x4 2 1.
Proof.
  destruct (proj1 rotate_cw_quarter_turn example4x4)
    as (out & Hout & _ & _ & Hget).
  exists out; split; [exact Hout|].
  apply (Hget 2 1); vm_compute; lia.
Defined.

(** C8.  On every well-shaped array, 1x1 and 1xN included, rotating
    clockwise then counter-clockwise, or the other way round, gives the
    array back, and the half turn and the two mirrors are involutions. *)
Theorem transforms_round_trip (m : Np.ndarray) :
  Np.well_shaped m ->
  (r <- apply_rotate_cw (PyArr m) ;; apply_rotate_ccw r) = Ok (PyArr m) /\
  (r <- apply_rotate_ccw (PyArr m) ;; apply_rotate_cw r) = Ok (PyArr m) /\
  (r <- apply_rotate_180 (PyArr m) ;; apply_rotate_180 r) = Ok (PyArr m) /\
  (r <- apply_mirror_h (PyArr m) ;; apply_mirror_h r) = Ok (PyArr m) /\
  (r <- apply_mirror_v (PyArr m) ;; apply_mirror_v r) = Ok (PyArr m).
Proof.
  intros Hm.
  unfold apply_rotate_cw, apply_rotate_ccw, apply_rotate_180, apply_mirror_h,
    apply_mirror_v, np_rot90, np_fliplr, np_flipud; cbn [bind].
  rewrite rot_ccw_cw, rot_cw_ccw, rot_180_180, fliplr_fliplr, flipud_flipud
    by assumption.
  repeat split; reflexivity.
Qed.

Lemma transforms_round_trip_witness :
  (r <- apply_rotate_cw (PyArr (Np.mk_ndarray (1, 3) [7; 8; 9]%Z)) ;;
   apply_rotate_ccw r) = Ok (PyArr (Np.mk_ndarray (1, 3) [7; 8; 9]%Z)).
Proof.
  apply (transforms_round_trip (Np.mk_ndarray (1, 3) [7; 8; 9]%Z)).
  reflexivity.
Defined.

Example round_trip_1x1 :
  (r <- apply_rotate_cw (PyArr (Np.mk_ndarray (1, 1) [5%Z])) ;;
   apply_rotate_ccw r) = Ok (PyArr (Np.mk_ndarray (1, 1) [5%Z])).
Proof. reflexivity. Qed.

Example rotate_1x3 :
  apply_rotate_cw (PyArr (Np.mk_ndarray (1, 3) [7; 8; 9]%Z)) =
  Ok (PyArr (Np.mk_ndarray (3, 1) [7; 8; 9]%Z)).
Proof. reflexivity. Qed.

(** ** The difference report *)

Lemma tabulate_flat {A : Type} (h w : nat) (g : nat -> A) (l : list A) (d : A) :
  length l = h * w ->
  (forall n, n < h * w -> nth n l d = g n) ->
  Np.tabulate h w (fun i j => g (i * w + j)) = l.
Proof.
  intros Hl Hg.
  rewrite <- (tabulate_of_nth h w l d Hl).
  apply tabulate_ext; intros i j Hi Hj.
  symmetry; apply Hg; nia.
Qed.

Lemma wrap_int16_small (z : Z) :
  (-32768 <= z < 32768)%Z -> Np.wrap_int16 z = z.
Proof.
  intros Hz; unfold Np.wrap_int16.
  rewrite Z.mod_small by lia; lia.
Qed.

Lemma int16_abs_difference (x y : Z) :
  (0 <= x < 256)%Z -> (0 <= y < 256)%Z ->
  Np.wrap_int16 (Z.abs (Np.wrap_int16 (Np.wrap_int16 x - Np.wrap_int16 y))) =
  Z.abs (x - y).
Proof.
  intros Hx Hy.
  rewrite (wrap_int16_small x), (wrap_int16_small y) by lia.
  rewrite (wrap_int16_small (x - y)) by lia.
  apply wrap_int16_small; lia.
Qed.

Lemma abs_difference_data (a b : Np.ndarray) :
  Np.shape_eqb a b = true -> Np.uint8_array a -> Np.uint8_array b ->
  Np.data (Np.abs_difference a b) =
  absolute_differences (Np.data a) (Np.data b).
Proof.
  intros E [Ha Ra] [Hb Rb]; apply shape_eqb_true in E as [Eh Ew].
  destruct a as [[h w] la], b as [[h' w'] lb].
  unfold Np.well_shaped, Np.height, Np.width in *; simpl in *; subst h' w'.
  unfold Np.abs_difference, Np.build, Np.get, Np.height, Np.width; simpl.
  apply (tabulate_flat h w
           (fun n => Np.wrap_int16 (Z.abs (Np.wrap_int16
              (Np.wrap_int16 (nth n la 0%Z) - Np.wrap_int16 (nth n lb 0%Z)))))
           _ 0%Z).
  - unfold absolute_differences.
    rewrite length_map, length_combine; lia.
  - intros n Hn; unfold absolute_differences.
    set (f := fun p : Z * Z => Z.abs (fst p - snd p)).
    rewrite nth_indep with (d' := f (0%Z, 0%Z))
      by (rewrite length_map, length_combine; lia).
    rewrite (map_nth f), combine_nth by lia; unfold f; simpl.
    symmetry; apply int16_abs_difference.
    + apply (proj1 (Forall_nth _ la) Ra); lia.
    + apply (proj1 (Forall_nth _ lb) Rb); lia.
Qed.


(** The array built from [f] applied to every entry of a well-shaped
    array holds [f] of its buffer. *)
Lemma tabulate_elementwise (f : Z -> Z) (d : Np.ndarray) :
  Np.well_shaped d ->
  Np.tabulate (Np.height d) (Np.width d) (fun i j => f (Np.get d i j)) =
  map f (Np.data d).
Proof.
  intros Hd; unfold Np.get.
  apply (tabulate_flat (Np.height d) (Np.width d)
           (fun n => f (nth n (Np.data d) 0%Z)) _ (f 0%Z)).
  - now rewrite length_map.
  - intros n _; apply map_nth.
Qed.

Lemma absolute_differences_range (la lb : list Z) :
  Forall (fun v => (0 <= v < 256)%Z) la ->
  Forall (fun v => (0 <= v < 256)%Z) lb ->
  Forall (fun v => (0 <= v < 256)%Z) (absolute_differences la lb).
Proof.
  intros Ha; revert lb; unfold absolute_differences.
  induction Ha as [|x la Hx _ IH]; intros lb Hb; [constructor|].
  destruct Hb as [|y lb Hy Hb]; simpl; [constructor|].
  constructor; [lia|now apply IH].
Qed.

Lemma amplify_value (d : Z) :
  (0 <= d < 256)%Z ->
  Np.wrap_uint8 (Z.min 255 (Z.max 0 (Np.wrap_int16 (d * 5)))) =
  Z.min 255 (5 * d).
Proof.
  intros Hd; rewrite wrap_int16_small by lia.
  unfold Np.wrap_uint8; rewrite Z.mod_small by lia; lia.
Qed.






(** The statistics are those of the plain difference; the saved array
    holds every difference times 5. *)
Example statistics_not_amplified :
  Float64.visualize_difference
    (loaded (Np.mk_ndarray (1, 2) [10; 20]%Z) (Np.mk_ndarray (1, 2) [13; 20]%Z)
       (95 # 100)) true =
  Ok (Some (Float64.mk_report (Some (Np.mk_ndarray (1, 2) [15; 0]%Z)) 1 2
              50%float 3 1.5%float)).
Proof. vm_compute; reflexivity. Qed.

(** * Further properties of the comparator *)

(** ** Perfect scores *)

Lemma filter_all {A : Type} (f : A -> bool) (l : list A) :
  length (filter f l) = length l <-> Forall (fun x => f x = true) l.
Proof.
  induction l as [|x l IH]; simpl.
  - split; [constructor|reflexivity].
  - destruct (f x) eqn:E; simpl.
    + split.
      * intros [= H]; constructor; [assumption|now apply IH].
      * intros H; inversion H; subst; f_equal; now apply IH.
    + split.
      * intros H; pose proof (filter_length_le f l); lia.
      * intros H; inversion H; congruence.
Qed.

Lemma in_positions (h w i j : nat) :
  In (i, j) (positions h w) <-> i < h /\ j < w.
Proof.
  unfold positions; rewrite in_prod_iff, !in_seq; lia.
Qed.

(** Every position matches exactly when the two arrays agree on the whole
    range of the shape. *)
Lemma matching_all (a b : Np.ndarray) :
  matching_positions a b = Np.size a <->
  (forall i j, i < Np.height a -> j < Np.width a ->
     Np.get a i j = Np.get b i j).
Proof.
  unfold matching_positions, Np.size.
  rewrite <- (positions_length (Np.height a) (Np.width a)).
  rewrite filter_all, Forall_forall; split.
  - intros H i j Hi Hj.
    apply Z.eqb_eq, (H (i, j)), in_positions; split; assumption.
  - intros H [i j] Hin; apply in_positions in Hin as [Hi Hj].
    apply Z.eqb_eq; simpl; now apply H.
Qed.

Lemma same_entries_same_array (a b : Np.ndarray) :
  Np.well_shaped a -> Np.well_shaped b -> Np.shape_eqb a b = true ->
  (forall i j, i < Np.height a -> j < Np.width a ->
     Np.get a i j = Np.get b i j) ->
  a = b.
Proof.
  intros Ha Hb E H; apply shape_eqb_true in E as [Eh Ew].
  rewrite <- (build_get a Ha), <- (build_get b Hb), <- Eh, <- Ew.
  now apply build_ext.
Qed.

Lemma positive_size (t : nat) : 0 < t -> (0 < inject_Z (Z.of_nat t))%Q.
Proof.
  intros Ht; change 0%Q with (inject_Z 0); rewrite <- Zlt_Qlt; lia.
Qed.

Lemma percent_of_all (t : nat) :
  0 < t ->
  Qred (Qred (inject_Z (Z.of_nat t) / inject_Z (Z.of_nat t)) * 100) = 100%Q.
Proof.
  intros Ht.
  change 100%Q with (Qred 100) at 2; apply Qred_complete.
  rewrite Qred_correct.
  unfold Qdiv; rewrite Qmult_inv_r, Qmult_1_l; [reflexivity|].
  intros E; pose proof (positive_size t Ht) as P; rewrite E in P.
  exact (Qlt_irrefl _ P).
Qed.

Lemma percent_below (c t : nat) :
  c < t ->
  (inject_Z (Z.of_nat c) / inject_Z (Z.of_nat t) * 100 < 100)%Q.
Proof.
  intros Hc.
  assert (Ht : (0 < inject_Z (Z.of_nat t))%Q) by (apply positive_size; lia).
  setoid_replace 100%Q with (1 * 100)%Q at 2 by reflexivity.
  apply Qmult_lt_compat_r; [reflexivity|].
  apply Qlt_shift_div_r; [assumption|].
  rewrite Qmult_1_l, <- Zlt_Qlt; lia.
Qed.

(** With [c <= t] matches out of [t > 0] positions the score reaches 100
    only at [c = t]. *)
Lemma percent_full (c t : nat) :
  0 < t -> c <= t ->
  py_ge (py_mul (Np.true_divide (Z.of_nat c) (Z.of_nat t)) 100) (Fl 100) = true ->
  c = t.
Proof.
  intros Ht Hc; rewrite percent_value by assumption; unfold py_ge.
  intros H; apply Qle_bool_iff in H; rewrite percent_Qeq in H.
  destruct (Nat.eq_dec c t) as [E|N]; [assumption|exfalso].
  apply (Qlt_not_le _ _ (percent_below c t ltac:(lia)) H).
Qed.

Lemma similarity_of_self (a : Np.ndarray) :
  0 < Np.size a -> similarity_of a a = Fl 100.
Proof.
  intros Hs; unfold similarity_of.
  rewrite (similarity_same_shape a a (shape_eqb_refl a)).
  replace (matching_positions a a) with (Np.size a)
    by (symmetry; apply matching_all; reflexivity).
  now rewrite percent_value, percent_of_all.
Qed.

Lemma similarity_of_full (a b : Np.ndarray) :
  Np.well_shaped a -> Np.well_shaped b -> 0 < Np.size a ->
  py_ge (similarity_of a b) (Fl 100) = true -> a = b.
Proof.
  intros Ha Hb Hs; unfold similarity_of.
  destruct (Np.shape_eqb a b) eqn:E.
  - rewrite (similarity_same_shape a b E); intros H.
    apply percent_full in H; [|assumption|apply matching_le_size].
    apply same_entries_same_array; try assumption.
    now apply matching_all.
  - unfold calculate_similarity; rewrite E; simpl.
    intros H; apply Qle_bool_iff in H.
    exfalso; revert H; apply Qlt_not_le; reflexivity.
Qed.

(** X1.  An array with at least one pixel scores 100 against itself. *)
Theorem similarity_with_itself (a : Np.ndarray) :
  0 < Np.size a ->
  calculate_similarity (PyArr a) (PyArr a) = Ok (Fl 100).
Proof.
  intros Hs; rewrite calculate_similarity_arrays.
  now rewrite similarity_of_self.
Qed.

Lemma similarity_with_itself_witness :
  calculate_similarity (PyArr example4x4) (PyArr example4x4) = Ok (Fl 100).
Proof.
  apply (similarity_with_itself example4x4); vm_compute; lia.
Defined.

(** X2.  The score is 100 only for identical arrays: two well-shaped
    arrays with at least one pixel score 100 exactly when they have the
    same shape and the same pixels. *)
Theorem perfect_score_iff_identical (a b : Np.ndarray) :
  Np.well_shaped a -> Np.well_shaped b -> 0 < Np.size a ->
  (calculate_similarity (PyArr a) (PyArr b) = Ok (Fl 100) <-> a = b).
Proof.
  intros Ha Hb Hs; rewrite calculate_similarity_arrays; split.
  - intros [= H]; apply similarity_of_full; try assumption.
    rewrite H; reflexivity.
  - intros <-; now rewrite similarity_of_self.
Qed.

Lemma perfect_score_iff_identical_witness :
  calculate_similarity (PyArr example4x4) (PyArr example4x4_cw) <>
  Ok (Fl 100).
Proof.
  intros H.
  apply (perfect_score_iff_identical example4x4 example4x4_cw) in H;
    [discriminate H|reflexivity|reflexivity|vm_compute; lia].
Defined.

(** X3.  The score does not depend on the order of its two arguments,
    whether they are arrays or [None]. *)
Theorem similarity_symmetric (img1 img2 : pyval) :
  calculate_similarity img1 img2 = calculate_similarity img2 img1.
Proof.
  destruct img1 as [|a], img2 as [|b]; try reflexivity.
  unfold calculate_similarity.
  assert (Es : Np.shape_eqb a b = Np.shape_eqb b a)
    by (unfold Np.shape_eqb; now rewrite (Nat.eqb_sym (Np.height a)),
          (Nat.eqb_sym (Np.width a))).
  rewrite <- Es; destruct (Np.shape_eqb a b) eqn:E; simpl; [|reflexivity].
  apply shape_eqb_true in E as [Eh Ew].
  unfold Np.equal, Np.size; rewrite <- Eh, <- Ew.
  do 4 f_equal.
  apply tabulate_ext; intros i j _ _; apply Z.eqb_sym.
Qed.

(** ** Which hypothesis the sweep returns *)

Lemma keep_best_below (top : pyfloat) (l : list (TransformType * pyfloat)) :
  Forall (fun r => py_ge (snd r) top = false) l ->
  forall init, py_gt top (snd init) = true ->
    py_gt top (snd (fold_left keep_best l init)) = true.
Proof.
  induction 1 as [|r l Hr _ IH]; intros init Hi; simpl; [assumption|].
  apply IH; unfold keep_best.
  destruct (py_gt (snd r) (snd init)) eqn:E; [|assumption].
  destruct (snd r) as [|q]; [discriminate|].
  destruct top as [|t]; [discriminate|].
  simpl in *; unfold Qltb; now rewrite Hr.
Qed.

Lemma keep_best_stays (k : TransformType) (top : pyfloat)
    (l : list (TransformType * pyfloat)) :
  Forall (fun r => py_gt (snd r) top = false) l ->
  fold_left keep_best l (k, top) = (k, top).
Proof.
  induction 1 as [|r l Hr _ IH]; simpl; [reflexivity|].
  unfold keep_best at 2; simpl; now rewrite Hr.
Qed.

(** The first entry that reaches a score no entry exceeds is the one the
    loop keeps. *)
Lemma keep_best_first_top (k : TransformType) (top : pyfloat)
    (l1 l2 : list (TransformType * pyfloat)) (init : TransformType * pyfloat) :
  py_gt top (snd init) = true ->
  Forall (fun r => py_ge (snd r) top = false) l1 ->
  Forall (fun r => py_gt (snd r) top = false) l2 ->
  fold_left keep_best (l1 ++ (k, top) :: l2) init = (k, top).
Proof.
  intros Hi H1 H2; rewrite fold_left_app; simpl.
  unfold keep_best at 2; simpl.
  rewrite (keep_best_below top l1 H1 init Hi).
  now apply keep_best_stays.
Qed.

Lemma similarity_of_at_most_100 (a b : Np.ndarray) :
  py_gt (similarity_of a b) (Fl 100) = false.
Proof.
  unfold similarity_of.
  destruct (Np.shape_eqb a b) eqn:E.
  - rewrite (similarity_same_shape a b E).
    destruct (Nat.eq_dec (Np.size a) 0) as [Z0|N].
    + unfold Np.true_divide; rewrite Z0; reflexivity.
    + rewrite percent_value by lia; unfold py_gt, Qltb.
      apply negb_false_iff, Qle_bool_iff.
      rewrite percent_Qeq.
      apply percent_bounds; [lia|apply matching_le_size].
  - unfold calculate_similarity; rewrite E; reflexivity.
Qed.

Lemma similarity_of_positive_shape (a b : Np.ndarray) :
  py_gt (similarity_of a b) (Fl 0) = true -> Np.shape_eqb a b = true.
Proof.
  unfold similarity_of, calculate_similarity.
  destruct (Np.shape_eqb a b); [reflexivity|simpl; discriminate].
Qed.

(** What each of the six hypotheses makes of an array *)
Lemma transformations_arrays (t : transformation) (m : Np.ndarray) :
  In t transformations ->
  exists x, snd t (PyArr m) = Ok (PyArr x) /\
    (Np.well_shaped m -> Np.well_shaped x) /\
    Np.size x = Np.size m.
Proof.
  unfold transformations; simpl.
  intros [<-|[<-|[<-|[<-|[<-|[<-|[]]]]]]]; simpl;
    eexists; (split; [reflexivity|]); split;
    try (intros _; first [rewrite rot90_cw | rewrite rot90_ccw
                         | rewrite rot90_180 | idtac];
         apply well_shaped_build);
    try (intros H; exact H);
    unfold Np.size; try rewrite rot90_cw; try rewrite rot90_ccw;
    try rewrite rot90_180; np_unfold; lia.
Qed.

Lemma attempt_loaded (a b x : Np.ndarray) (thr : Q) (t : transformation) :
  snd t (PyArr a) = Ok (PyArr x) ->
  attempt (loaded a b thr) t = Ok (similarity_of x b).
Proof.
  intros H; unfold attempt, loaded; simpl; rewrite H; simpl.
  apply calculate_similarity_arrays.
Qed.

Lemma scored_all (P : TransformType * pyfloat -> Prop) (a b : Np.ndarray)
    (thr : Q) (l : list transformation) :
  (forall t x, In t l -> snd t (PyArr a) = Ok (PyArr x) ->
     P (fst t, similarity_of x b)) ->
  (forall t, In t l -> In t transformations) ->
  Forall P (scored (loaded a b thr) l).
Proof.
  intros HP Hin; unfold scored; apply Forall_flat_map, Forall_forall.
  intros t Ht.
  destruct (transformations_arrays t a (Hin t Ht)) as (x & Hx & _).
  rewrite (attempt_loaded a b x thr t Hx).
  constructor; [now apply (HP t x)|constructor].
Qed.

(** X4.  When one of the six transforms maps the original onto the
    candidate exactly, the sweep returns the earliest such hypothesis in
    declaration order, at score 100, whatever the threshold. *)
Theorem detect_earliest_exact_transform (m c : Np.ndarray) (thr : Q)
    (l1 l2 : list transformation) (tr : transformation) :
  Np.well_shaped m -> 0 < Np.size m ->
  transformations = l1 ++ tr :: l2 ->
  snd tr (PyArr m) = Ok (PyArr c) ->
  Forall (fun t => snd t (PyArr m) <> Ok (PyArr c)) l1 ->
  exists rs, detect_transformation (loaded m c thr) = Ok (fst tr, Fl 100, rs).
Proof.
  intros Hm Hs Htr Hc Hl1.
  assert (Hin : forall t, In t (l1 ++ tr :: l2) -> In t transformations)
    by (intros t Ht; now rewrite Htr).
  destruct (transformations_arrays tr m (Hin tr (in_elt tr l1 l2)))
    as (c' & Hc' & Wc & Sc).
  rewrite Hc in Hc'; injection Hc' as <-.
  destruct (detect_transformation_scored (loaded m c thr))
    as (v & Hv & Hr & Hb).
  assert (Hsplit : scored (loaded m c thr) transformations =
            scored (loaded m c thr) l1 ++ (fst tr, Fl 100) ::
            scored (loaded m c thr) l2).
  { rewrite Htr; unfold scored; rewrite flat_map_app; simpl.
    rewrite (attempt_loaded m c c thr tr Hc), similarity_of_self by lia.
    reflexivity. }
  rewrite Hsplit in Hb.
  rewrite keep_best_first_top in Hb.
  - destruct v as [[k s] rs]; unfold bestKind, bestScore in Hb; simpl in Hb.
    injection Hb as -> ->; now exists rs.
  - reflexivity.
  - apply scored_all.
    + intros t x Ht Hx; simpl.
      destruct (py_ge (similarity_of x c) (Fl 100)) eqn:E; [|reflexivity].
      exfalso.
      destruct (transformations_arrays t m
                  (Hin t (in_or_app _ _ _ (or_introl Ht))))
        as (x' & Hx' & Wx & Sx).
      rewrite Hx in Hx'; injection Hx' as <-.
      apply similarity_of_full in E; [|now apply Wx|now apply Wc|lia].
      rewrite Forall_forall in Hl1; apply (Hl1 t Ht).
      now rewrite Hx, E.
    + intros t Ht; apply Hin, in_or_app; now left.
  - apply scored_all.
    + intros t x _ _; apply similarity_of_at_most_100.
    + intros t Ht; apply Hin, in_or_app; right; now right.
Qed.

Lemma detect_earliest_exact_transform_witness :
  exists rs,
    detect_transformation (loaded example4x4 example4x4_cw (95 # 100)) =
    Ok (ROTATE_CW, Fl 100, rs).
Proof.
  apply (detect_earliest_exact_transform example4x4 example4x4_cw (95 # 100)
           [(IDENTICAL, fun x => Ok x)]
           [(ROTATE_CCW, apply_rotate_ccw); (ROTATE_180, apply_rotate_180);
            (MIRROR_H, apply_mirror_h); (MIRROR_V, apply_mirror_v)]
           (ROTATE_CW, apply_rotate_cw)).
  - reflexivity.
  - vm_compute; lia.
  - reflexivity.
  - reflexivity.
  - constructor; [simpl; discriminate|constructor].
Defined.

(** X5.  An image with at least one pixel compared with itself is
    detected as IDENTICAL at score 100. *)
Theorem detect_same_image (m : Np.ndarray) (thr : Q) :
  0 < Np.size m ->
  exists rs, detect_transformation (loaded m m thr) = Ok (IDENTICAL, Fl 100, rs).
Proof.
  intros Hs.
  destruct (detect_transformation_scored (loaded m m thr))
    as (v & Hv & Hr & Hb).
  rewrite scored_loaded, similarity_of_self in Hb by assumption.
  match type of Hb with
  | _ = fold_left keep_best (_ :: ?l) ?i =>
      assert (K : fold_left keep_best ((IDENTICAL, Fl 100) :: l) i =
                  (IDENTICAL, Fl 100))
        by (apply (keep_best_first_top IDENTICAL (Fl 100) [] l i);
            [reflexivity|constructor
            |repeat constructor; apply similarity_of_at_most_100])
  end.
  rewrite K in Hb.
  destruct v as [[k s] rs]; unfold bestKind, bestScore in Hb; simpl in Hb.
  injection Hb as -> ->; now exists rs.
Qed.

Lemma detect_same_image_witness :
  exists rs,
    detect_transformation (loaded example4x4 example4x4 (95 # 100)) =
    Ok (IDENTICAL, Fl 100, rs).
Proof.
  apply (detect_same_image example4x4 (95 # 100)); vm_compute; lia.
Defined.

Lemma detect_loaded_scores (a b : Np.ndarray) (thr : Q) :
  exists v, detect_transformation (loaded a b thr) = Ok v /\
    allResults v =
      [ (IDENTICAL, similarity_of a b);
        (ROTATE_CW, similarity_of (Np.rot90 a (-1)) b);
        (ROTATE_CCW, similarity_of (Np.rot90 a 1) b);
        (ROTATE_180, similarity_of (Np.rot90 a 2) b);
        (MIRROR_H, similarity_of (Np.fliplr a) b);
        (MIRROR_V, similarity_of (Np.flipud a) b) ] /\
    (bestKind v = UNKNOWN \/
     (In (bestKind v, bestScore v) (allResults v) /\
      py_gt (bestScore v) (Fl 0) = true)).
Proof.
  destruct (detect_transformation_scored (loaded a b thr))
    as (v & Hv & Hr & Hb).
  exists v; split; [assumption|]; split.
  - now rewrite Hr, scored_loaded.
  - rewrite Hr.
    destruct (keep_best_fold _ UNKNOWN 0 (bestKind v, bestScore v) Hb)
      as [[E _] | (l1 & l2 & E & Hgt & _)].
    + left; now injection E.
    + right; split; [rewrite E; apply in_elt|assumption].
Qed.

Lemma shape_of_equal_shape (a b : Np.ndarray) :
  Np.shape_eqb a b = true -> Np.shape b = Np.shape a.
Proof.
  intros E; apply shape_eqb_true in E as [Eh Ew].
  unfold Np.height, Np.width in *.
  destruct (Np.shape a), (Np.shape b); simpl in *; congruence.
Qed.

(** X6.  The verdict fits the shapes.  A quarter turn is returned only
    for a candidate whose shape is the original's with height and width
    exchanged; the identity, the half turn and the two mirrors only for a
    candidate of the original's shape. *)
Theorem verdict_kind_fits_shape (a b : Np.ndarray) (thr : Q) :
  exists v, detect_transformation (loaded a b thr) = Ok v /\
    match bestKind v with
    | ROTATE_CW | ROTATE_CCW => Np.shape b = (Np.width a, Np.height a)
    | IDENTICAL | ROTATE_180 | MIRROR_H | MIRROR_V => Np.shape b = Np.shape a
    | UNKNOWN => True
    end.
Proof.
  destruct (detect_loaded_scores a b thr) as (v & Hv & Hr & Hbest).
  exists v; split; [assumption|].
  destruct Hbest as [-> | [Hin Hgt]]; [exact I|].
  destruct a as [[h w] la].
  rewrite Hr in Hin; simpl in Hin.
  repeat (destruct Hin as [Hin|Hin];
          [injection Hin as Ek Es; rewrite <- Ek; rewrite <- Es in Hgt;
           apply similarity_of_positive_shape, shape_of_equal_shape in Hgt;
           exact Hgt|]).
  destruct Hin.
Qed.

(** A 2x4 original against a candidate of its own shape can only come
    out as one of the four shape-preserving kinds, or UNKNOWN. *)
Example rectangular_same_shape :
  detect_transformation
    (loaded (Np.mk_ndarray (2, 4) [1; 2; 2; 1; 5; 6; 7; 8]%Z)
            (Np.mk_ndarray (2, 4) [1; 2; 2; 1; 8; 7; 6; 5]%Z) (95 # 100)) =
  Ok (MIRROR_H, Fl 100,
      [(IDENTICAL, Fl 50); (ROTATE_CW, Fl 0); (ROTATE_CCW, Fl 0);
       (ROTATE_180, Fl 0); (MIRROR_H, Fl 100);
       (MIRROR_V, Fl 0)]).
Proof. reflexivity. Qed.

(** ** How the transforms compose *)

(** Two arrays built over one shape are equal when their index functions
    agree on it. *)
Ltac np_same_build :=
  np_unfold; apply build_ext; intros;
  repeat rewrite get_build by lia;
  f_equal; lia.

Lemma rot_cw_cw (m : Np.ndarray) :
  Np.rot90 (Np.rot90 m (-1)) (-1) = Np.rot90 m 2.
Proof. rewrite !rot90_cw, rot90_180; np_same_build. Qed.

Lemma rot_ccw_ccw (m : Np.ndarray) :
  Np.rot90 (Np.rot90 m 1) 1 = Np.rot90 m 2.
Proof. rewrite !rot90_ccw, rot90_180; np_same_build. Qed.

Lemma rot_cw_180 (m : Np.ndarray) :
  Np.rot90 (Np.rot90 m 2) (-1) = Np.rot90 m 1.
Proof. rewrite rot90_cw, rot90_ccw, rot90_180; np_same_build. Qed.

Lemma flipud_fliplr (m : Np.ndarray) :
  Np.flipud (Np.fliplr m) = Np.rot90 m 2.
Proof. rewrite rot90_180; np_same_build. Qed.

(** X7.  The rotations compose as quarter turns should, on arrays and on
    [None] alike: two clockwise turns, or two counter-clockwise turns,
    are the half turn; a half turn followed by a clockwise turn is the
    counter-clockwise turn; and on a well-shaped array four clockwise
    turns give the array back. *)
Theorem rotations_compose (img : pyval) :
  (r <- apply_rotate_cw img ;; apply_rotate_cw r) = apply_rotate_180 img /\
  (r <- apply_rotate_ccw img ;; apply_rotate_ccw r) = apply_rotate_180 img /\
  (r <- apply_rotate_180 img ;; apply_rotate_cw r) = apply_rotate_ccw img /\
  (forall m, img = PyArr m -> Np.well_shaped m ->
     (r1 <- apply_rotate_cw img ;; r2 <- apply_rotate_cw r1 ;;
      r3 <- apply_rotate_cw r2 ;; apply_rotate_cw r3) = Ok img).
Proof.
  unfold apply_rotate_cw, apply_rotate_ccw, apply_rotate_180, np_rot90.
  destruct img as [|a]; cbn [bind].
  - repeat split; try reflexivity; intros m [=].
  - rewrite rot_cw_cw, rot_ccw_ccw, rot_cw_180.
    repeat split; try reflexivity.
    intros m [= <-] Hm; cbn [bind].
    rewrite rot_cw_ccw by assumption; reflexivity.
Qed.

Lemma rotations_compose_witness :
  (r1 <- apply_rotate_cw (PyArr example4x4) ;; r2 <- apply_rotate_cw r1 ;;
   r3 <- apply_rotate_cw r2 ;; apply_rotate_cw r3) = Ok (PyArr example4x4).
Proof.
  apply (proj2 (proj2 (proj2 (rotations_compose (PyArr example4x4))))
           example4x4 eq_refl).
  reflexivity.
Defined.

(** X8.  The two mirrors commute, and either order of them is the half
    turn. *)
Theorem mirrors_compose (img : pyval) :
  (r <- apply_mirror_h img ;; apply_mirror_v r) = apply_rotate_180 img /\
  (r <- apply_mirror_v img ;; apply_mirror_h r) = apply_rotate_180 img.
Proof.
  unfold apply_mirror_h, apply_mirror_v, apply_rotate_180, np_rot90,
    np_fliplr, np_flipud.
  destruct img as [|a]; cbn [bind]; [split; reflexivity|].
  rewrite flipud_fliplr; split; reflexivity.
Qed.

(** ** What the transforms keep *)

Lemma Forall_tabulate {A : Type} (P : A -> Prop) (h w : nat)
    (f : nat -> nat -> A) :
  (forall i j, i < h -> j < w -> P (f i j)) ->
  Forall P (Np.tabulate h w f).
Proof.
  intros H; unfold Np.tabulate.
  apply Forall_flat_map, Forall_forall; intros i Hi.
  apply Forall_map, Forall_forall; intros j Hj.
  apply in_seq in Hi, Hj; apply H; lia.
Qed.

Lemma get_in_range (P : Z -> Prop) (m : Np.ndarray) (i j : nat) :
  Np.well_shaped m -> Forall P (Np.data m) ->
  i < Np.height m -> j < Np.width m -> P (Np.get m i j).
Proof.
  unfold Np.well_shaped, Np.get; intros Hm HP Hi Hj.
  apply (proj1 (Forall_nth P (Np.data m)) HP); rewrite Hm; nia.
Qed.

Lemma uint8_transpose (m : Np.ndarray) :
  Np.uint8_array m -> Np.uint8_array (Np.transpose m).
Proof.
  intros [Hm Hr]; split; [apply well_shaped_build|].
  apply Forall_tabulate; intros i j Hi Hj.
  apply get_in_range; assumption.
Qed.

Lemma uint8_fliplr (m : Np.ndarray) :
  Np.uint8_array m -> Np.uint8_array (Np.fliplr m).
Proof.
  intros [Hm Hr]; split; [apply well_shaped_build|].
  apply Forall_tabulate; intros i j Hi Hj.
  apply get_in_range; try assumption; lia.
Qed.

Lemma uint8_flipud (m : Np.ndarray) :
  Np.uint8_array m -> Np.uint8_array (Np.flipud m).
Proof.
  intros [Hm Hr]; split; [apply well_shaped_build|].
  apply Forall_tabulate; intros i j Hi Hj.
  apply get_in_range; try assumption; lia.
Qed.

(** X9.  Each of the six hypotheses turns a uint8 image into a uint8
    image with the same number of pixels: the buffer fits the new shape
    and every value stays within 0..255. *)
Theorem transforms_keep_uint8 (t : transformation) (m x : Np.ndarray) :
  In t transformations -> Np.uint8_array m ->
  snd t (PyArr m) = Ok (PyArr x) ->
  Np.uint8_array x /\ Np.size x = Np.size m.
Proof.
  intros Hin Hm Hx.
  destruct (transformations_arrays t m Hin) as (x' & Hx' & _ & Hs).
  rewrite Hx in Hx'; injection Hx' as <-.
  split; [|assumption].
  unfold transformations in Hin; simpl in Hin.
  destruct Hin as [<-|[<-|[<-|[<-|[<-|[<-|[]]]]]]]; simpl in Hx;
    injection Hx as <-.
  - assumption.
  - rewrite rot90_cw; now apply uint8_fliplr, uint8_transpose.
  - rewrite rot90_ccw; now apply uint8_transpose, uint8_fliplr.
  - rewrite rot90_180; now apply uint8_fliplr, uint8_flipud.
  - now apply uint8_fliplr.
  - now apply uint8_flipud.
Qed.

Lemma transforms_keep_uint8_witness :
  Np.uint8_array example4x4_cw /\ Np.size example4x4_cw = Np.size example4x4.
Proof.
  apply (transforms_keep_uint8 (ROTATE_CW, apply_rotate_cw) example4x4).
  - right; left; reflexivity.
  - split; [reflexivity|repeat constructor; vm_compute; congruence].
  - reflexivity.
Defined.

(** ** The exit status of [main] *)

Lemma similarity_of_positive_size (a b : Np.ndarray) :
  py_gt (similarity_of a b) (Fl 0) = true -> 0 < Np.size a.
Proof.
  intros H; pose proof (similarity_of_positive_shape a b H) as E.
  unfold similarity_of in H; rewrite (similarity_same_shape a b E) in H.
  destruct (Nat.eq_dec (Np.size a) 0) as [Z0|N]; [|lia].
  unfold Np.true_divide in H; rewrite Z0 in H; discriminate.
Qed.

(** A positive score of any hypothesis needs a candidate with pixels, of
    as many pixels as the original. *)
Lemma positive_score_sizes (a b : Np.ndarray) :
  Exists (fun s => py_gt s (Fl 0) = true) (hypothesis_scores a b) ->
  0 < Np.size a.
Proof.
  unfold hypothesis_scores; intros H.
  repeat (apply Exists_cons in H as [H|H];
          [apply similarity_of_positive_size in H; revert H;
           unfold Np.size; try rewrite rot90_cw; try rewrite rot90_ccw;
           try rewrite rot90_180; np_unfold; lia|]).
  inversion H.
Qed.

Lemma visualize_difference_returns (a b : Np.ndarray) (thr : Q)
    (save_path : bool) :
  0 < Np.size a ->
  exists r, visualize_difference (loaded a b thr) save_path = Ok r.
Proof.
  intros Hs; unfold visualize_difference, loaded;
    cbn [original_img transformed_img].
  destruct (Np.shape_eqb a b); cbn [negb]; [|now eexists].
  assert (Hlen : length (Np.data (Np.abs_difference a b)) = Np.size a)
    by apply tabulate_length.
  unfold Np.max.
  destruct (Np.data (Np.abs_difference a b)); [simpl in Hlen; lia|].
  now eexists.
Qed.

Lemma detected_kind_known (a b : Np.ndarray) (thr : Q) :
  exists v, detect_transformation (loaded a b thr) = Ok v /\
    (bestKind v <> UNKNOWN <->
     Exists (fun s => py_gt s (Fl 0) = true) (hypothesis_scores a b)).
Proof.
  destruct (detect_loaded a b thr) as (v & Hv & Hk & Hbest).
  destruct (detect_loaded_scores a b thr) as (v' & Hv' & Hr & _).
  rewrite Hv in Hv'; injection Hv' as <-.
  assert (Hs : hypothesis_scores a b = map snd (allResults v))
    by (now rewrite Hr).
  exists v; split; [assumption|]; rewrite Hs.
  destruct Hbest as [(Ek & _ & Hall) | (l1 & l2 & E & Hgt & _)].
  - split; [congruence|].
    intros HE; exfalso.
    apply Exists_exists in HE as (s & Hin & Hpos).
    apply in_map_iff in Hin as (r & <- & Hin).
    rewrite Forall_forall in Hall; specialize (Hall r Hin); congruence.
  - split.
    + intros _; apply Exists_exists; exists (bestScore v); split; [|assumption].
      apply in_map_iff; exists (bestKind v, bestScore v); split; [reflexivity|].
      rewrite E; apply in_elt.
    + intros _ EU.
      assert (Hin : In (bestKind v) (map fst (allResults v)))
        by (rewrite E, map_app; apply in_elt).
      rewrite Hk, EU in Hin; simpl in Hin.
      repeat (destruct Hin as [Hin|Hin]; [discriminate|]); exact Hin.
Qed.

(** The exit status of [main] once the arguments are parsed and the
    threshold is a finite number, case by case *)
Lemma main_parsed_exit_iff (thr : Q) (diff : bool)
    (opened_original opened_transformed : result Np.ndarray) :
  let status :=
    main (Parsed (mk_arguments (Finite thr) diff))
      opened_original opened_transformed in
  (status = 0%Z \/ status = 1%Z) /\
  (status = 0%Z <->
   (0 <= thr <= 1)%Q /\
   exists a b, opened_original = Ok a /\ opened_transformed = Ok b /\
     Exists (fun s => py_gt s (Fl 0) = true) (hypothesis_scores a b)).
Proof.
  cbv zeta; unfold main; cbn [args_threshold args_diff].
  destruct (Qle_bool 0 thr) eqn:E0; [destruct (Qle_bool thr 1) eqn:E1|];
    cbn [andb negb].
  2: { split; [now right|]; split; [discriminate|].
       intros [[_ H] _]; apply Qle_bool_iff in H; congruence. }
  2: { split; [now right|]; split; [discriminate|].
       intros [[H _] _]; apply Qle_bool_iff in H; congruence. }
  apply Qle_bool_iff in E0, E1.
  unfold compare_files, load_images, new_comparator; simpl.
  destruct opened_original as [a|e].
  2: { split; [now right|]; split; [discriminate|].
       intros (_ & a & b & [=] & _). }
  destruct opened_transformed as [b|e].
  2: { split; [now right|]; split; [discriminate|].
       intros (_ & a' & b & _ & [=] & _). }
  fold (loaded a b thr).
  destruct (detected_kind_known a b thr) as (v & Hv & Hknown).
  unfold compare; rewrite Hv; simpl.
  destruct v as [[k s] rs]; unfold bestKind in Hknown; simpl in Hknown.
  destruct (Exists_dec (fun s => py_gt s (Fl 0) = true)
              (hypothesis_scores a b)) as [Hpos|Hneg].
  { intros x; destruct (py_gt x (Fl 0)); [now left|right; discriminate]. }
  - assert (Hk : k <> UNKNOWN) by now apply Hknown.
    assert (Hd : exists r,
               (if diff
                then visualize_difference (loaded a b thr) true
                else Ok None) = Ok r).
    { destruct diff; [|now eexists].
      apply visualize_difference_returns, (positive_score_sizes a b Hpos). }
    destruct Hd as (r & ->); simpl.
    destruct k; try congruence;
      (split; [now left|]; split; [|reflexivity]);
      intros _; (split; [now split|]); now exists a, b.
  - assert (Hk : k = UNKNOWN).
    { destruct k; try reflexivity;
        exfalso; apply Hneg, Hknown; discriminate. }
    subst k.
    destruct (if diff
              then visualize_difference (loaded a b thr) true
              else Ok None); simpl;
      (split; [now right|]; split; [discriminate|]);
      intros (_ & a' & b' & [= <-] & [= <-] & H); contradiction.
Qed.

(** X10.  [main] exits with status 0 exactly when the help is asked for,
    or when the command line parses, the threshold lies in [0, 1], both
    images load and at least one hypothesis scores above 0.  It exits
    with status 2 exactly when argparse rejects the command line, and
    with status 1 in every other case.  Whether the best score reaches
    the threshold plays no part, and neither does [--diff] as long as the
    difference map can be written. *)
Theorem main_exit_status (parse_arguments : parse_outcome)
    (opened_original opened_transformed : result Np.ndarray) :
  (main parse_arguments opened_original opened_transformed = 0%Z <->
   parse_arguments = HelpShown \/
   exists thr diff a b,
     parse_arguments = Parsed (mk_arguments (Finite thr) diff) /\
     (0 <= thr <= 1)%Q /\
     opened_original = Ok a /\ opened_transformed = Ok b /\
     Exists (fun s => py_gt s (Fl 0) = true) (hypothesis_scores a b)) /\
  (main parse_arguments opened_original opened_transformed = 2%Z <->
   parse_arguments = UsageError) /\
  (main parse_arguments opened_original opened_transformed = 0%Z \/
   main parse_arguments opened_original opened_transformed = 1%Z \/
   main parse_arguments opened_original opened_transformed = 2%Z).
Proof.
  destruct parse_arguments as [| |[[thr|] diff]].
  - simpl; repeat split; try discriminate; auto.
  - simpl; repeat split; try discriminate; auto.
    intros [H|(thr & diff & a & b & H & _)]; discriminate H.
  - destruct (main_parsed_exit_iff thr diff opened_original
                opened_transformed) as [Hval Hiff]; cbv zeta in Hval, Hiff.
    split; [|split].
    + rewrite Hiff; split.
      * intros [Hthr (a & b & Ho & Ht & Hs)].
        right; exists thr, diff, a, b; repeat split; tauto.
      * intros [H|(thr' & diff' & a & b & H & Hthr & Ho & Ht & Hs)];
          [discriminate H|].
        injection H as -> ->.
        split; [assumption|now exists a, b].
    + split; [|discriminate].
      intros H; destruct Hval as [H0|H1]; rewrite H in *; discriminate.
    + destruct Hval as [H0|H1]; [now left|now right; left].
  - simpl; repeat split; try discriminate; auto.
    intros [H|(thr & diff' & a & b & H & _)]; discriminate H.
Qed.

(** X11.  The exit status of [main] is the same for any two thresholds
    within [0, 1]. *)
Theorem main_exit_status_ignores_threshold (thr1 thr2 : Q) (diff : bool)
    (opened_original opened_transformed : result Np.ndarray) :
  (0 <= thr1 <= 1)%Q -> (0 <= thr2 <= 1)%Q ->
  main (Parsed (mk_arguments (Finite thr1) diff))
    opened_original opened_transformed =
  main (Parsed (mk_arguments (Finite thr2) diff))
    opened_original opened_transformed.
Proof.
  intros H1 H2.
  destruct (main_parsed_exit_iff thr1 diff opened_original
              opened_transformed) as [[Z1|O1] I1];
  destruct (main_parsed_exit_iff thr2 diff opened_original
              opened_transformed) as [[Z2|O2] I2];
    cbv zeta in *; try congruence.
  - apply I1 in Z1 as [_ H].
    assert (Z2 : main (Parsed (mk_arguments (Finite thr2) diff))
                   opened_original opened_transformed = 0%Z)
      by (apply I2; now split).
    congruence.
  - apply I2 in Z2 as [_ H].
    assert (Z1 : main (Parsed (mk_arguments (Finite thr1) diff))
                   opened_original opened_transformed = 0%Z)
      by (apply I1; now split).
    congruence.
Qed.

Lemma main_exit_status_ignores_threshold_witness :
  main (Parsed (mk_arguments (Finite (95 # 100)) false))
    (Ok example4x4) (Ok example4x4_cw) =
  main (Parsed (mk_arguments (Finite (10 # 100)) false))
    (Ok example4x4) (Ok example4x4_cw).
Proof.
  apply (main_exit_status_ignores_threshold (95 # 100) (10 # 100) false);
    split; vm_compute; discriminate.
Defined.

(** A best score of 25 under a threshold of 0.95: [compare] reports no
    clear transformation, and [main] still exits with status 0. *)
Example exit_zero_below_threshold :
  compare (loaded example4x4 (Np.fliplr example4x4_cw) (95 # 100)) false =
    Ok (IDENTICAL,
        NoClearTransformation IDENTICAL (Fl 25) ((95 # 100) * 100)) /\
  main (Parsed (mk_arguments (Finite (95 # 100)) false)) (Ok example4x4)
    (Ok (Np.fliplr example4x4_cw)) = 0%Z.
Proof. split; vm_compute; reflexivity. Qed.

(** The help and a rejected command line exit before any image is
    opened; a threshold of nan, or one outside [0, 1], exits with status
    1 whatever the images. *)
Example exits_before_the_images :
  main HelpShown (Raise ValueError) (Raise ValueError) = 0%Z /\
  main UsageError (Ok example4x4) (Ok example4x4_cw) = 2%Z /\
  main (Parsed (mk_arguments NotFinite false))
    (Ok example4x4) (Ok example4x4_cw) = 1%Z /\
  main (Parsed (mk_arguments (Finite (3 # 2)) false))
    (Ok example4x4) (Ok example4x4_cw) = 1%Z.
Proof. repeat split. Qed.

Lemma main_exit_status_witness :
  main (Parsed (mk_arguments (Finite (95 # 100)) false))
    (Ok example4x4) (Ok example4x4_cw) = 0%Z.
Proof.
  apply (proj1 (main_exit_status
                  (Parsed (mk_arguments (Finite (95 # 100)) false))
                  (Ok example4x4) (Ok example4x4_cw))).
  right; exists (95 # 100), false, example4x4, example4x4_cw.
  split; [reflexivity|]; split; [split; vm_compute; discriminate|].
  repeat split.
  right; left; reflexivity.
Defined.

(** ** More on the difference report *)

Lemma filter_split_length {A : Type} (f : A -> bool) (l : list A) :
  length (filter f l) + length (filter (fun x => negb (f x)) l) = length l.
Proof.
  induction l as [|x l IH]; simpl; [reflexivity|].
  destruct (f x); simpl; lia.
Qed.

Lemma filter_map_length {A B : Type} (f : B -> bool) (g : A -> B)
    (l : list A) :
  length (filter f (map g l)) = length (filter (fun x => f (g x)) l).
Proof.
  induction l as [|x l IH]; simpl; [reflexivity|].
  destruct (f (g x)); simpl; now rewrite IH.
Qed.

(** Every position either matches or differs. *)
Lemma differing_plus_matching (a b : Np.ndarray) :
  Np.shape_eqb a b = true -> Np.uint8_array a -> Np.uint8_array b ->
  Np.count_nonzero (Np.abs_difference a b) + matching_positions a b =
  Np.size a.
Proof.
  intros E [Ha Ra] [Hb Rb]; apply shape_eqb_true in E as [Eh Ew].
  unfold Np.count_nonzero, Np.abs_difference, Np.build; simpl.
  rewrite tabulate_positions, filter_map_length.
  unfold matching_positions, Np.size.
  rewrite <- (positions_length (Np.height a) (Np.width a)).
  rewrite <- (filter_split_length
                (fun p => Z.eqb (Np.get a (fst p) (snd p))
                                (Np.get b (fst p) (snd p)))
                (positions (Np.height a) (Np.width a))).
  rewrite Nat.add_comm; f_equal; f_equal.
  apply filter_ext_in; intros [i j] Hin; simpl.
  apply in_positions in Hin as [Hi Hj].
  rewrite int16_abs_difference.
  - destruct (Z.eqb_spec (Np.get a i j) (Np.get b i j)) as [->|N];
      [now rewrite Z.sub_diag|].
    destruct (Z.eqb_spec (Z.abs (Np.get a i j - Np.get b i j)) 0);
      [lia|reflexivity].
  - now apply (get_in_range (fun v => (0 <= v < 256)%Z)).
  - apply (get_in_range (fun v => (0 <= v < 256)%Z)); try assumption; lia.
Qed.

(** X12.  The two counts agree.  For two uint8 images of one shape with
    at least one pixel, the differing pixels counted by
    [visualize_difference] and the matching pixels counted by
    [calculate_similarity], its [matches], add up to the number of
    pixels. *)
Theorem difference_complements_similarity (a b : Np.ndarray) (thr : Q)
    (save_path : bool) :
  Np.shape_eqb a b = true -> Np.uint8_array a -> Np.uint8_array b ->
  0 < Np.size a ->
  exists r,
    Float64.visualize_difference (loaded a b thr) save_path = Ok (Some r) /\
    Np.sum_bool (Np.equal a b) = Z.of_nat (matching_positions a b) /\
    Float64.non_zero r + matching_positions a b = Float64.total r /\
    Float64.total r = Np.size a.
Proof.
  intros E Ua Ub Hs.
  pose proof (differing_plus_matching a b E Ua Ub) as Hsum.
  unfold Float64.visualize_difference, loaded;
    cbn [original_img transformed_img].
  rewrite E; cbn [negb]; cbv zeta.
  assert (Hlen : length (Np.data (Np.abs_difference a b)) = Np.size a)
    by apply tabulate_length.
  unfold Np.max.
  destruct (Np.data (Np.abs_difference a b)) as [|v l] eqn:Ed;
    [simpl in Hlen; lia|]; cbn [bind].
  eexists; split; [reflexivity|].
  cbn [Float64.non_zero Float64.total].
  split; [apply sum_equal_matching|split; [assumption|reflexivity]].
Qed.

Lemma difference_complements_similarity_witness :
  exists r,
    Float64.visualize_difference
      (loaded example4x4 example4x4_cw (95 # 100)) false = Ok (Some r) /\
    Np.sum_bool (Np.equal example4x4 example4x4_cw) =
      Z.of_nat (matching_positions example4x4 example4x4_cw) /\
    Float64.non_zero r + matching_positions example4x4 example4x4_cw =
      Float64.total r /\
    Float64.total r = Np.size example4x4.
Proof.
  apply (difference_complements_similarity example4x4 example4x4_cw
           (95 # 100) false).
  - reflexivity.
  - split; [reflexivity|repeat constructor; vm_compute; congruence].
  - split; [reflexivity|repeat constructor; vm_compute; congruence].
  - vm_compute; lia.
Defined.

(** The two percentages are rounded apart: with 1 pixel of 3 equal the
    similarity is 33.33333333333333 and the difference percentage
    66.66666666666666, and their sum is the double next below 100. *)
Example percentages_rounded_apart :
  exists s r,
    Float64.calculate_similarity
      (PyArr (Np.mk_ndarray (1, 3) [7; 0; 0]%Z))
      (PyArr (Np.mk_ndarray (1, 3) [7; 1; 1]%Z)) = Ok s /\
    Float64.visualize_difference
      (loaded (Np.mk_ndarray (1, 3) [7; 0; 0]%Z)
         (Np.mk_ndarray (1, 3) [7; 1; 1]%Z) (95 # 100)) false =
      Ok (Some r) /\
    PrimFloat.add s (Float64.diff_percentage r) =
      PrimFloat.next_down 100%float.
Proof.
  eexists; eexists; split; [vm_compute; reflexivity|].
  split; [vm_compute; reflexivity|].
  vm_compute; reflexivity.
Qed.

Lemma abs_difference_self (a : Np.ndarray) :
  Forall (fun v => v = 0%Z) (Np.data (Np.abs_difference a a)).
Proof.
  unfold Np.abs_difference, Np.build; simpl.
  apply Forall_tabulate; intros i j _ _.
  now rewrite Z.sub_diag.
Qed.

Lemma zeros_count (l : list Z) :
  Forall (fun v => v = 0%Z) l ->
  length (filter (fun v => negb (Z.eqb v 0)) l) = 0.
Proof. induction 1 as [|v l -> _ IH]; simpl; [reflexivity|exact IH]. Qed.

Lemma zeros_max (l : list Z) :
  Forall (fun v => v = 0%Z) l -> fold_left Z.max l 0%Z = 0%Z.
Proof. induction 1 as [|v l -> _ IH]; simpl; [reflexivity|exact IH]. Qed.

Lemma zeros_sum (l : list Z) :
  Forall (fun v => v = 0%Z) l -> fold_right Z.add 0%Z l = 0%Z.
Proof. induction 1 as [|v l -> _ IH]; simpl; [reflexivity|exact IH]. Qed.

Lemma zero_ratio (t : nat) :
  0 < t -> Qred (inject_Z 0 / inject_Z (Z.of_nat t)) = 0%Q.
Proof.
  intros Ht; transitivity (Qred 0); [|reflexivity].
  apply Qred_complete; unfold Qdiv; now rewrite Qmult_0_l.
Qed.

Lemma zero_percent (t : nat) :
  0 < t -> py_mul (Np.true_divide 0 (Z.of_nat t)) 100 = Fl 0.
Proof.
  intros Ht; unfold Np.true_divide.
  destruct (Z.eqb_spec (Z.of_nat t) 0) as [Z0|_]; [lia|].
  unfold py_mul; now rewrite zero_ratio.
Qed.

(** X13.  For an image with at least one pixel compared with itself the
    report shows no differing pixel: count 0 of the size, 0 percent,
    maximum 0, mean 0. *)
Theorem no_difference_with_itself (a : Np.ndarray) (thr : Q)
    (save_path : bool) :
  0 < Np.size a ->
  exists r, visualize_difference (loaded a a thr) save_path = Ok (Some r) /\
    non_zero r = 0 /\ total r = Np.size a /\ diff_percentage r = Fl 0 /\
    max_difference r = 0%Z /\ mean_difference r = Fl 0.
Proof.
  intros Hs.
  pose proof (abs_difference_self a) as Hz.
  unfold visualize_difference, loaded; simpl; rewrite shape_eqb_refl; simpl.
  assert (Hsz : Np.size (Np.abs_difference a a) = Np.size a) by reflexivity.
  assert (Hn : Np.count_nonzero (Np.abs_difference a a) = 0)
    by (now apply zeros_count).
  assert (Hm : Np.mean (Np.abs_difference a a) = Fl 0).
  { unfold Np.mean, Np.true_divide; rewrite Hsz, zeros_sum by assumption.
    destruct (Z.eqb_spec (Z.of_nat (Np.size a)) 0) as [Z0|_]; [lia|].
    now rewrite zero_ratio. }
  cbv zeta; rewrite Hsz, Hn, Hm; change (Z.of_nat 0) with 0%Z.
  rewrite zero_percent by assumption.
  assert (Hlen : length (Np.data (Np.abs_difference a a)) = Np.size a)
    by apply tabulate_length.
  unfold Np.max.
  destruct (Np.data (Np.abs_difference a a)) as [|v l];
    [simpl in Hlen; lia|]; simpl.
  inversion Hz as [|v' l' -> Hl]; subst.
  rewrite zeros_max by assumption.
  eexists; split; [reflexivity|]; simpl; repeat split.
Qed.

Lemma no_difference_with_itself_witness :
  exists r,
    visualize_difference (loaded example4x4 example4x4 (95 # 100)) true =
      Ok (Some r) /\
    non_zero r = 0 /\ total r = Np.size example4x4 /\
    diff_percentage r = Fl 0 /\
    max_difference r = 0%Z /\ mean_difference r = Fl 0.
Proof.
  apply (no_difference_with_itself example4x4 (95 # 100) true).
  vm_compute; lia.
Defined.

Lemma visualize_difference_value (a b : Np.ndarray) (thr : Q)
    (save_path : bool) :
  Np.shape_eqb a b = true -> 0 < Np.size a ->
  exists mx,
    Np.max (Np.abs_difference a b) = Ok mx /\
    visualize_difference (loaded a b thr) save_path =
    Ok (Some (mk_report
                (if save_path
                 then Some (Np.amplify (Np.abs_difference a b)) else None)
                (Np.count_nonzero (Np.abs_difference a b)) (Np.size a)
                (py_mul
                   (Np.true_divide
                      (Z.of_nat (Np.count_nonzero (Np.abs_difference a b)))
                      (Z.of_nat (Np.size a))) 100)
                mx (Np.mean (Np.abs_difference a b)))).
Proof.
  intros E Hs; unfold visualize_difference, loaded;
    cbn [original_img transformed_img].
  rewrite E; cbn [negb]; cbv zeta.
  change (Np.size (Np.abs_difference a b)) with (Np.size a).
  destruct (Np.max (Np.abs_difference a b)) as [mx|e] eqn:Em.
  2: { assert (Hlen : length (Np.data (Np.abs_difference a b)) = Np.size a)
         by apply tabulate_length.
       unfold Np.max in Em.
       destruct (Np.data (Np.abs_difference a b));
         [simpl in Hlen; lia|discriminate]. }
  exists mx; split; reflexivity.
Qed.

(** X14.  The saved difference map saturates.  For two uint8 images of
    one shape, the array written to [save_path] has the images' shape and
    holds, pixel by pixel, five times the absolute difference capped at
    255; it is itself a uint8 image. *)
Theorem saved_map_is_capped_amplification (a b : Np.ndarray) (thr : Q) :
  Np.shape_eqb a b = true -> Np.uint8_array a -> Np.uint8_array b ->
  0 < Np.size a ->
  exists r img,
    visualize_difference (loaded a b thr) true = Ok (Some r) /\
    saved r = Some img /\
    Np.shape img = (Np.height a, Np.width a) /\
    Np.data img = map (fun d => Z.min 255 (5 * d))
                    (absolute_differences (Np.data a) (Np.data b)) /\
    Np.uint8_array img.
Proof.
  intros E Ua Ub Hs.
  pose proof (abs_difference_data a b E Ua Ub) as Hd.
  destruct (visualize_difference_value a b thr true E Hs)
    as (mx & _ & Hv).
  eexists; exists (Np.amplify (Np.abs_difference a b)).
  split; [exact Hv|]; split; [reflexivity|]; split; [reflexivity|].
  assert (Hrange : Forall (fun v => (0 <= v < 256)%Z)
                     (absolute_differences (Np.data a) (Np.data b)))
    by (apply absolute_differences_range; [apply Ua|apply Ub]).
  assert (Hdata : Np.data (Np.amplify (Np.abs_difference a b)) =
            map (fun d => Z.min 255 (5 * d))
              (absolute_differences (Np.data a) (Np.data b))).
  { unfold Np.amplify, Np.build; simpl.
    rewrite (tabulate_elementwise
               (fun d => Np.wrap_uint8 (Z.min 255 (Z.max 0
                           (Np.wrap_int16 (d * 5)))))
               (Np.abs_difference a b)) by apply well_shaped_build.
    rewrite Hd; apply map_ext_in; intros d Hin.
    apply amplify_value.
    rewrite Forall_forall in Hrange; now apply Hrange. }
  split; [assumption|]; split; [apply well_shaped_build|].
  rewrite Hdata; apply Forall_map.
  eapply Forall_impl; [|exact Hrange]; cbv beta; intros d Hr'; lia.
Qed.

Lemma saved_map_is_capped_amplification_witness :
  exists r img,
    visualize_difference (loaded example4x4 example4x4_cw (95 # 100)) true =
      Ok (Some r) /\
    saved r = Some img /\
    Np.shape img = (Np.height example4x4, Np.width example4x4) /\
    Np.data img = map (fun d => Z.min 255 (5 * d))
                    (absolute_differences (Np.data example4x4)
                       (Np.data example4x4_cw)) /\
    Np.uint8_array img.
Proof.
  apply (saved_map_is_capped_amplification example4x4 example4x4_cw
           (95 # 100)).
  - reflexivity.
  - split; [reflexivity|repeat constructor; vm_compute; congruence].
  - split; [reflexivity|repeat constructor; vm_compute; congruence].
  - vm_compute; lia.
Defined.

(** Differences of 51 and more all come out as 255. *)
Example saturated_difference :
  visualize_difference
    (loaded (Np.mk_ndarray (1, 2) [0; 0]%Z) (Np.mk_ndarray (1, 2) [51; 200]%Z)
       (95 # 100)) true =
  Ok (Some (mk_report (Some (Np.mk_ndarray (1, 2) [255; 255]%Z)) 2 2
              (Fl 100) 200 (Fl (251 # 2)))).
Proof. reflexivity. Qed.

(** ** Exchanging the two images *)

Lemma similarity_of_sym (a b : Np.ndarray) :
  similarity_of a b = similarity_of b a.
Proof.
  unfold similarity_of, calculate_similarity.
  assert (Es : Np.shape_eqb a b = Np.shape_eqb b a)
    by (unfold Np.shape_eqb; now rewrite (Nat.eqb_sym (Np.height a)),
          (Nat.eqb_sym (Np.width a))).
  rewrite <- Es; destruct (Np.shape_eqb a b) eqn:E; simpl; [|reflexivity].
  apply shape_eqb_true in E as [Eh Ew].
  unfold Np.equal, Np.size; rewrite <- Eh, <- Ew.
  do 3 f_equal.
  apply tabulate_ext; intros i j _ _; apply Z.eqb_sym.
Qed.

Lemma NoDup_positions (h w : nat) : NoDup (positions h w).
Proof.
  unfold positions; induction (seq_NoDup h 0) as [|i l Hi Hl IH]; simpl;
    [constructor|].
  apply NoDup_app.
  - apply NoDup_map_NoDup_ForallPairs; [|apply seq_NoDup].
    intros x y _ _ [= E]; exact E.
  - exact IH.
  - intros [x y] Hin Hin'.
    apply in_map_iff in Hin as (j & [= <- <-] & _).
    apply in_prod_iff in Hin' as [Hin' _]; contradiction.
Qed.

Lemma permutation_count (f : nat * nat -> bool) (l l' : list (nat * nat)) :
  Permutation l l' ->
  length (filter f l) = length (filter f l').
Proof.
  induction 1 as [|x l l' _ IH|x y l|l l' l'' _ IH1 _ IH2]; simpl.
  - reflexivity.
  - destruct (f x); simpl; now rewrite IH.
  - destruct (f x), (f y); reflexivity.
  - now rewrite IH1.
Qed.

(** Counting through a one-to-one renumbering of the positions *)
Lemma count_renumbered (f : nat * nat -> bool) (s : nat * nat -> nat * nat)
    (h w h' w' : nat) :
  h' * w' = h * w ->
  (forall p, In p (positions h' w') -> In (s p) (positions h w)) ->
  (forall p q, In p (positions h' w') -> In q (positions h' w') ->
     s p = s q -> p = q) ->
  length (filter (fun p => f (s p)) (positions h' w')) =
  length (filter f (positions h w)).
Proof.
  intros Hsz Hin Hinj.
  rewrite <- filter_map_length.
  apply permutation_count, NoDup_Permutation_bis.
  - apply NoDup_map_NoDup_ForallPairs; [|apply NoDup_positions].
    intros p q Hp Hq; now apply Hinj.
  - rewrite length_map, !positions_length; lia.
  - intros q Hq; apply in_map_iff in Hq as (p & <- & Hp); now apply Hin.
Qed.

(** A score is unchanged when both arrays go through the same numpy
    primitive. *)
Lemma similarity_of_renumbered (a b a' b' : Np.ndarray)
    (s : nat * nat -> nat * nat) :
  Np.shape_eqb a' b' = Np.shape_eqb a b ->
  Np.size a' = Np.size a ->
  (forall p, In p (positions (Np.height a') (Np.width a')) ->
     In (s p) (positions (Np.height a) (Np.width a))) ->
  (forall p q, In p (positions (Np.height a') (Np.width a')) ->
     In q (positions (Np.height a') (Np.width a')) -> s p = s q -> p = q) ->
  (forall i j, i < Np.height a' -> j < Np.width a' ->
     Np.get a' i j = Np.get a (fst (s (i, j))) (snd (s (i, j))) /\
     Np.get b' i j = Np.get b (fst (s (i, j))) (snd (s (i, j)))) ->
  similarity_of a' b' = similarity_of a b.
Proof.
  intros Es Hsz Hin Hinj Hget; unfold similarity_of.
  destruct (Np.shape_eqb a b) eqn:E.
  - rewrite (similarity_same_shape a' b' Es), (similarity_same_shape a b E).
    rewrite Hsz; do 3 f_equal.
    unfold matching_positions.
    rewrite <- (count_renumbered
                  (fun p => Z.eqb (Np.get a (fst p) (snd p))
                                  (Np.get b (fst p) (snd p)))
                  s (Np.height a) (Np.width a) (Np.height a') (Np.width a')
                  Hsz Hin Hinj).
    f_equal; apply filter_ext_in; intros [i j] Hp; simpl.
    apply in_positions in Hp as [Hi Hj].
    destruct (Hget i j Hi Hj) as [-> ->]; reflexivity.
  - unfold calculate_similarity; now rewrite Es, E.
Qed.

Lemma similarity_of_transpose (a b : Np.ndarray) :
  Np.shape_eqb a b = true ->
  similarity_of (Np.transpose a) (Np.transpose b) = similarity_of a b.
Proof.
  intros E; pose proof E as E'; apply shape_eqb_true in E' as [Eh Ew].
  apply similarity_of_renumbered with (s := fun p => (snd p, fst p)).
  - rewrite E; apply shape_eqb_true; np_unfold; split; congruence.
  - unfold Np.size; np_unfold; lia.
  - np_unfold; intros [i j] Hp; apply in_positions in Hp.
    apply in_positions; simpl; lia.
  - intros [i j] [i' j'] _ _ [= -> ->]; reflexivity.
  - np_unfold; intros i j Hi Hj; simpl.
    rewrite !get_build by lia; split; reflexivity.
Qed.

Lemma similarity_of_fliplr (a b : Np.ndarray) :
  Np.shape_eqb a b = true ->
  similarity_of (Np.fliplr a) (Np.fliplr b) = similarity_of a b.
Proof.
  intros E; pose proof E as E'; apply shape_eqb_true in E' as [Eh Ew].
  apply similarity_of_renumbered
    with (s := fun p => (fst p, Np.width a - 1 - snd p)).
  - rewrite E; apply shape_eqb_true; np_unfold; split; congruence.
  - reflexivity.
  - np_unfold; intros [i j] Hp; apply in_positions in Hp.
    apply in_positions; simpl; lia.
  - np_unfold; intros [i j] [i' j'] Hp Hq; simpl.
    apply in_positions in Hp, Hq.
    intros [= -> H]; f_equal; lia.
  - np_unfold; intros i j Hi Hj; simpl.
    rewrite !get_build, <- Ew by lia; split; reflexivity.
Qed.

Lemma similarity_of_flipud (a b : Np.ndarray) :
  Np.shape_eqb a b = true ->
  similarity_of (Np.flipud a) (Np.flipud b) = similarity_of a b.
Proof.
  intros E; pose proof E as E'; apply shape_eqb_true in E' as [Eh Ew].
  apply similarity_of_renumbered
    with (s := fun p => (Np.height a - 1 - fst p, snd p)).
  - rewrite E; apply shape_eqb_true; np_unfold; split; congruence.
  - reflexivity.
  - np_unfold; intros [i j] Hp; apply in_positions in Hp.
    apply in_positions; simpl; lia.
  - np_unfold; intros [i j] [i' j'] Hp Hq; simpl.
    apply in_positions in Hp, Hq.
    intros [= H ->]; f_equal; lia.
  - np_unfold; intros i j Hi Hj; simpl.
    rewrite !get_build, <- Eh by lia; split; reflexivity.
Qed.

Lemma shape_eqb_transpose (a b : Np.ndarray) :
  Np.shape_eqb (Np.transpose a) (Np.transpose b) = Np.shape_eqb a b.
Proof. unfold Np.shape_eqb; np_unfold; apply andb_comm. Qed.

Lemma similarity_of_mismatch (a b : Np.ndarray) :
  Np.shape_eqb a b = false -> similarity_of a b = Fl 0.
Proof.
  intros E; unfold similarity_of, calculate_similarity; now rewrite E.
Qed.

Lemma similarity_transposed (a b : Np.ndarray) :
  similarity_of (Np.transpose a) (Np.transpose b) = similarity_of a b.
Proof.
  destruct (Np.shape_eqb a b) eqn:E; [now apply similarity_of_transpose|].
  rewrite !similarity_of_mismatch; try reflexivity; try assumption.
  now rewrite shape_eqb_transpose.
Qed.

Lemma similarity_flipped_lr (a b : Np.ndarray) :
  similarity_of (Np.fliplr a) (Np.fliplr b) = similarity_of a b.
Proof.
  destruct (Np.shape_eqb a b) eqn:E; [now apply similarity_of_fliplr|].
  rewrite !similarity_of_mismatch; try reflexivity; assumption.
Qed.

Lemma similarity_flipped_ud (a b : Np.ndarray) :
  similarity_of (Np.flipud a) (Np.flipud b) = similarity_of a b.
Proof.
  destruct (Np.shape_eqb a b) eqn:E; [now apply similarity_of_flipud|].
  rewrite !similarity_of_mismatch; try reflexivity; assumption.
Qed.

Lemma similarity_rotated (a b : Np.ndarray) :
  similarity_of (Np.rot90 a (-1)) (Np.rot90 b (-1)) = similarity_of a b /\
  similarity_of (Np.rot90 a 1) (Np.rot90 b 1) = similarity_of a b /\
  similarity_of (Np.rot90 a 2) (Np.rot90 b 2) = similarity_of a b.
Proof.
  rewrite !rot90_cw, !rot90_ccw, !rot90_180.
  rewrite !similarity_flipped_lr, !similarity_transposed,
    !similarity_flipped_lr, !similarity_flipped_ud.
  repeat split.
Qed.

(** Moving a transform from the original to the candidate turns it into
    its inverse. *)
Lemma similarity_transform_moved (a b : Np.ndarray) :
  Np.well_shaped b ->
  similarity_of (Np.rot90 b (-1)) a = similarity_of (Np.rot90 a 1) b /\
  similarity_of (Np.rot90 b 1) a = similarity_of (Np.rot90 a (-1)) b /\
  similarity_of (Np.rot90 b 2) a = similarity_of (Np.rot90 a 2) b /\
  similarity_of (Np.fliplr b) a = similarity_of (Np.fliplr a) b /\
  similarity_of (Np.flipud b) a = similarity_of (Np.flipud a) b.
Proof.
  intros Hb; repeat split.
  - rewrite <- (proj1 (proj2 (similarity_rotated (Np.rot90 b (-1)) a))).
    rewrite rot_ccw_cw by assumption; apply similarity_of_sym.
  - rewrite <- (proj1 (similarity_rotated (Np.rot90 b 1) a)).
    rewrite rot_cw_ccw by assumption; apply similarity_of_sym.
  - rewrite <- (proj2 (proj2 (similarity_rotated (Np.rot90 b 2) a))).
    rewrite rot_180_180 by assumption; apply similarity_of_sym.
  - rewrite <- (similarity_flipped_lr (Np.fliplr b) a).
    rewrite fliplr_fliplr by assumption; apply similarity_of_sym.
  - rewrite <- (similarity_flipped_ud (Np.flipud b) a).
    rewrite flipud_flipud by assumption; apply similarity_of_sym.
Qed.

(** X15.  Exchanging the two images exchanges the scores of ROTATE_CW
    and ROTATE_CCW and leaves the scores of the other four hypotheses as
    they were. *)
Theorem exchanging_images_exchanges_quarter_turns (a b : Np.ndarray)
    (thr : Q) :
  Np.well_shaped b ->
  exists k s k' s' s1 s2 s3 s4 s5 s6,
    detect_transformation (loaded a b thr) =
      Ok (k, s,
          [(IDENTICAL, s1); (ROTATE_CW, s2); (ROTATE_CCW, s3);
           (ROTATE_180, s4); (MIRROR_H, s5); (MIRROR_V, s6)]) /\
    detect_transformation (loaded b a thr) =
      Ok (k', s',
          [(IDENTICAL, s1); (ROTATE_CW, s3); (ROTATE_CCW, s2);
           (ROTATE_180, s4); (MIRROR_H, s5); (MIRROR_V, s6)]).
Proof.
  intros Hb.
  destruct (detect_loaded_scores a b thr) as ([[k s] rs] & Hv & Hr & _).
  destruct (detect_loaded_scores b a thr) as ([[k' s'] rs'] & Hv' & Hr' & _).
  unfold allResults in Hr, Hr'; simpl in Hr, Hr'; subst rs rs'.
  destruct (similarity_transform_moved a b Hb) as (E1 & E2 & E3 & E4 & E5).
  rewrite E1, E2, E3, E4, E5, (similarity_of_sym b a) in Hv'.
  do 10 eexists; split; [exact Hv|exact Hv'].
Qed.

Lemma exchanging_images_exchanges_quarter_turns_witness :
  exists k s k' s' s1 s2 s3 s4 s5 s6,
    detect_transformation (loaded example4x4 example4x4_cw (95 # 100)) =
      Ok (k, s,
          [(IDENTICAL, s1); (ROTATE_CW, s2); (ROTATE_CCW, s3);
           (ROTATE_180, s4); (MIRROR_H, s5); (MIRROR_V, s6)]) /\
    detect_transformation (loaded example4x4_cw example4x4 (95 # 100)) =
      Ok (k', s',
          [(IDENTICAL, s1); (ROTATE_CW, s3); (ROTATE_CCW, s2);
           (ROTATE_180, s4); (MIRROR_H, s5); (MIRROR_V, s6)]).
Proof.
  apply (exchanging_images_exchanges_quarter_turns example4x4 example4x4_cw
           (95 # 100)).
  reflexivity.
Defined.

(** X16.  A score does not change when the same transform is applied to
    both images. *)
Theorem similarity_invariant_under_transforms (a b : Np.ndarray) :
  calculate_similarity (PyArr (Np.rot90 a (-1))) (PyArr (Np.rot90 b (-1))) =
    calculate_similarity (PyArr a) (PyArr b) /\
  calculate_similarity (PyArr (Np.rot90 a 1)) (PyArr (Np.rot90 b 1)) =
    calculate_similarity (PyArr a) (PyArr b) /\
  calculate_similarity (PyArr (Np.rot90 a 2)) (PyArr (Np.rot90 b 2)) =
    calculate_similarity (PyArr a) (PyArr b) /\
  calculate_similarity (PyArr (Np.fliplr a)) (PyArr (Np.fliplr b)) =
    calculate_similarity (PyArr a) (PyArr b) /\
  calculate_similarity (PyArr (Np.flipud a)) (PyArr (Np.flipud b)) =
    calculate_similarity (PyArr a) (PyArr b).
Proof.
  rewrite !calculate_similarity_arrays.
  destruct (similarity_rotated a b) as (-> & -> & ->).
  now rewrite similarity_flipped_lr, similarity_flipped_ud.
Qed.

(** * The pixel conversion of [pixels2gray.py] *)

Lemma fold_min_negative (l : list Z) :
  forall v, (fold_left Z.min l v <? 0)%Z = existsb (fun x => (x <? 0)%Z) (v :: l).
Proof.
  induction l as [|x l IH]; intros v; simpl.
  - now rewrite orb_false_r.
  - rewrite IH; simpl; rewrite orb_assoc; f_equal.
    destruct (Z.ltb_spec (Z.min v x) 0), (Z.ltb_spec v 0), (Z.ltb_spec x 0);
      simpl; try reflexivity; lia.
Qed.

Lemma fold_max_large (l : list Z) :
  forall v,
    (fold_left Z.max l v >? 255)%Z = existsb (fun x => (x >? 255)%Z) (v :: l).
Proof.
  induction l as [|x l IH]; intros v; simpl.
  - now rewrite orb_false_r.
  - rewrite IH; simpl; rewrite orb_assoc; f_equal.
    rewrite !Z.gtb_ltb.
    destruct (Z.ltb_spec 255 (Z.max v x)), (Z.ltb_spec 255 v),
      (Z.ltb_spec 255 x); simpl; try reflexivity; lia.
Qed.

Lemma existsb_either {A : Type} (f g : A -> bool) (l : list A) :
  existsb (fun x => f x || g x) l = existsb f l || existsb g l.
Proof.
  induction l as [|x l IH]; simpl; [reflexivity|].
  rewrite IH; destruct (f x), (g x), (existsb f l); reflexivity.
Qed.

Lemma clamp_wraps_to_itself (v : Z) :
  Np.wrap_uint8 (Z.min 255 (Z.max 0 v)) = Z.min 255 (Z.max 0 v).
Proof. unfold Np.wrap_uint8; apply Z.mod_small; lia. Qed.

(** X17.  [process_pixels] never wraps a value around: on a non-empty
    array it returns every value clamped to 0..255, so values already in
    range pass unchanged, and it prints its warning exactly when some
    value is out of range.  On an empty array it raises ValueError. *)
Theorem process_pixels_clamps (data : list Z) :
  MatrixConverter.process_pixels [] = Raise ValueError /\
  (data <> [] ->
   MatrixConverter.process_pixels data =
   Ok (existsb (fun v => (v <? 0)%Z || (v >? 255)%Z) data,
       map (fun v => Z.min 255 (Z.max 0 v)) data)).
Proof.
  split; [reflexivity|].
  destruct data as [|v l]; [congruence|intros _].
  unfold MatrixConverter.process_pixels, MatrixConverter.np_min,
    MatrixConverter.np_max; cbn [bind].
  rewrite fold_min_negative, fold_max_large, existsb_either.
  destruct (existsb (fun x => (x <? 0)%Z) (v :: l) ||
            existsb (fun x => (x >? 255)%Z) (v :: l)) eqn:E.
  - unfold MatrixConverter.np_clip; rewrite map_map.
    do 2 f_equal; apply map_ext; intros x; apply clamp_wraps_to_itself.
  - do 2 f_equal; apply map_ext_in; intros x Hx.
    rewrite <- existsb_either in E.
    assert (Hr : (x <? 0)%Z || (x >? 255)%Z = false).
    { destruct ((x <? 0)%Z || (x >? 255)%Z) eqn:Ex; [|reflexivity].
      assert (existsb (fun x => (x <? 0)%Z || (x >? 255)%Z) (v :: l) = true)
        by (apply existsb_exists; now exists x).
      congruence. }
    apply orb_false_iff in Hr as [H0 H1].
    rewrite Z.gtb_ltb in H1; apply Z.ltb_ge in H0, H1.
    unfold Np.wrap_uint8; rewrite Z.mod_small by lia; lia.
Qed.

Lemma process_pixels_clamps_witness :
  MatrixConverter.process_pixels [-3; 7; 300]%Z =
  Ok (true, [0; 7; 255]%Z).
Proof.
  apply (proj2 (process_pixels_clamps [-3; 7; 300]%Z)); discriminate.
Defined.

(** * The hexadecimal writers of [gray2pixels.py] and [gray2mem.py] *)

Module FmtFacts.

Import Ascii String.
Local Open Scope string_scope.

(** A byte is printed as its two digits; checked on all 256 values. *)
Lemma format_byte (b : Z) :
  (0 <= b < 256)%Z -> Fmt.format_0X 2 b = Fmt.byte_literal b.
Proof.
  intros Hb.
  assert (All : forallb (fun k => String.eqb (Fmt.format_0X 2 (Z.of_nat k))
                                    (Fmt.byte_literal (Z.of_nat k)))
                  (seq 0 256) = true) by (vm_compute; reflexivity).
  rewrite forallb_forall in All.
  specialize (All (Z.to_nat b)).
  rewrite Z2Nat.id in All by lia.
  apply String.eqb_eq, All, in_seq; lia.
Qed.

Lemma land_255 (v : Z) : Z.land v 255 = (v mod 256)%Z.
Proof. change 255%Z with (Z.ones 8); now rewrite Z.land_ones by lia. Qed.

Lemma byte_of_code (value : Z) :
  Z.land value 255 = Fmt.byte_of value 0 /\
  Z.land (Z.shiftr value 8) 255 = Fmt.byte_of value 1 /\
  Z.land (Z.shiftr value 16) 255 = Fmt.byte_of value 2 /\
  Z.land (Z.shiftr value 24) 255 = Fmt.byte_of value 3.
Proof.
  unfold Fmt.byte_of; rewrite !land_255, !Z.shiftr_div_pow2 by lia.
  rewrite Z.pow_0_r, Z.div_1_r; repeat split.
Qed.

Lemma byte_of_range (value i : Z) : (0 <= Fmt.byte_of value i < 256)%Z.
Proof. unfold Fmt.byte_of; apply Z.mod_pos_bound; lia. Qed.

(** X18.  [_write_u32_le] writes [value] least significant byte first:
    four byte literals of two upper-case hexadecimal digits each, holding
    bytes 0, 1, 2, 3 of the value, which together make up the value
    modulo 2^32, so the value itself for any height or width below
    2^32. *)
Theorem write_u32_le_little_endian (value : Z) :
  Fmt._write_u32_le value =
    "    0x" ++ Fmt.byte_literal (Fmt.byte_of value 0) ++
    ", 0x" ++ Fmt.byte_literal (Fmt.byte_of value 1) ++
    ", 0x" ++ Fmt.byte_literal (Fmt.byte_of value 2) ++
    ", 0x" ++ Fmt.byte_literal (Fmt.byte_of value 3) ++ "," ++ Fmt.nl /\
  (Fmt.byte_of value 0 + 256 * Fmt.byte_of value 1 +
   65536 * Fmt.byte_of value 2 + 16777216 * Fmt.byte_of value 3 =
   value mod 2 ^ 32)%Z /\
  ((0 <= value < 2 ^ 32)%Z ->
   (Fmt.byte_of value 0 + 256 * Fmt.byte_of value 1 +
    65536 * Fmt.byte_of value 2 + 16777216 * Fmt.byte_of value 3 =
    value)%Z).
Proof.
  assert (Sum : (Fmt.byte_of value 0 + 256 * Fmt.byte_of value 1 +
                 65536 * Fmt.byte_of value 2 +
                 16777216 * Fmt.byte_of value 3 = value mod 2 ^ 32)%Z).
  { unfold Fmt.byte_of.
    change (256 ^ 0)%Z with 1%Z; change (256 ^ 1)%Z with 256%Z.
    change (256 ^ 2)%Z with 65536%Z; change (256 ^ 3)%Z with 16777216%Z.
    change (2 ^ 32)%Z with 4294967296%Z.
    Z.div_mod_to_equations; lia. }
  split; [|split; [exact Sum|]].
  - unfold Fmt._write_u32_le.
    destruct (byte_of_code value) as (-> & -> & -> & ->).
    rewrite !format_byte by apply byte_of_range.
    reflexivity.
  - intros Hv; rewrite Sum; apply Z.mod_small; exact Hv.
Qed.

Lemma write_u32_le_little_endian_witness :
  (Fmt.byte_of 512 0 + 256 * Fmt.byte_of 512 1 +
   65536 * Fmt.byte_of 512 2 + 16777216 * Fmt.byte_of 512 3 = 512)%Z.
Proof.
  apply (proj2 (proj2 (write_u32_le_little_endian 512))).
  split; [discriminate|reflexivity].
Defined.

Lemma hex_digit_round_trip (d : Z) :
  (0 <= d < 16)%Z -> Fmt.hex_digit_value (Fmt.hex_char d) = Some d.
Proof.
  intros Hd.
  assert (All : forallb (fun k =>
                   match Fmt.hex_digit_value (Fmt.hex_char (Z.of_nat k)) with
                   | Some v => Z.eqb v (Z.of_nat k)
                   | None => false
                   end) (seq 0 16) = true) by (vm_compute; reflexivity).
  rewrite forallb_forall in All.
  specialize (All (Z.to_nat d)); rewrite Z2Nat.id in All by lia.
  assert (Hin : In (Z.to_nat d) (seq 0 16)) by (apply in_seq; lia).
  specialize (All Hin).
  destruct (Fmt.hex_digit_value (Fmt.hex_char d)) as [v|]; [|discriminate].
  apply Z.eqb_eq in All; now subst.
Qed.

Lemma hex_value_last (ds : list ascii) (c : ascii) (a d : Z) :
  Fmt.hex_value ds = Some a -> Fmt.hex_digit_value c = Some d ->
  Fmt.hex_value (ds ++ [c]) = Some (16 * a + d)%Z.
Proof.
  unfold Fmt.hex_value; intros Ha Hd.
  rewrite fold_left_app, Ha; simpl; now rewrite Hd.
Qed.

Lemma hex_digits_value (fuel : nat) :
  forall n, (0 <= n < 16 ^ Z.of_nat fuel)%Z ->
    Fmt.hex_value (Fmt.hex_digits fuel n) = Some n.
Proof.
  induction fuel as [|fuel IH]; intros n Hn.
  - simpl in Hn; change (16 ^ 0)%Z with 1%Z in Hn.
    assert (n = 0%Z) by lia; subst; reflexivity.
  - simpl Fmt.hex_digits.
    destruct (Z.ltb_spec n 16) as [Hs|Hl].
    + unfold Fmt.hex_value; simpl.
      now rewrite hex_digit_round_trip by lia.
    + rewrite Nat2Z.inj_succ, Z.pow_succ_r in Hn by lia.
      rewrite (hex_value_last _ _ (n / 16) (n mod 16)).
      * f_equal; pose proof (Z.div_mod n 16); lia.
      * apply IH; split; [apply Z.div_pos; lia|].
        apply Z.div_lt_upper_bound; lia.
      * apply hex_digit_round_trip, Z.mod_pos_bound; lia.
Qed.

Lemma hex_digits_length (fuel : nat) :
  forall n k, (0 <= n < 16 ^ Z.of_nat k)%Z -> 1 <= k ->
    List.length (Fmt.hex_digits fuel n) <= k.
Proof.
  induction fuel as [|fuel IH]; intros n k Hn Hk; simpl; [lia|].
  destruct (Z.ltb_spec n 16) as [Hs|Hl]; simpl; [lia|].
  rewrite length_app; simpl.
  destruct k as [|[|k]]; [lia| |].
  - change (16 ^ Z.of_nat 1)%Z with 16%Z in Hn; lia.
  - rewrite Nat2Z.inj_succ, Z.pow_succ_r in Hn by lia.
    assert (List.length (Fmt.hex_digits fuel (n / 16)) <= S k); [|lia].
    apply IH; [|lia]; split; [apply Z.div_pos; lia|].
    apply Z.div_lt_upper_bound; lia.
Qed.

Lemma to_hex_fuel (n : Z) :
  (0 <= n)%Z -> (n < 16 ^ Z.of_nat (S (Z.to_nat (Z.log2 n))))%Z.
Proof.
  intros Hn; rewrite Nat2Z.inj_succ, Z2Nat.id by apply Z.log2_nonneg.
  apply Z.lt_le_trans with (2 ^ Z.succ (Z.log2 n))%Z.
  - destruct (Z.eq_dec n 0) as [->|N]; [reflexivity|].
    apply Z.log2_spec; lia.
  - apply Z.pow_le_mono_l; pose proof (Z.log2_nonneg n); lia.
Qed.

Lemma zero_pad_value (width : nat) (ds : list ascii) :
  Fmt.hex_value (Fmt.zero_pad width ds) = Fmt.hex_value ds.
Proof.
  unfold Fmt.zero_pad, Fmt.hex_value; rewrite fold_left_app; f_equal.
  induction (width - List.length ds) as [|m IH]; [reflexivity|exact IH].
Qed.

Lemma zero_pad_length (width : nat) (ds : list ascii) :
  List.length ds <= width -> List.length (Fmt.zero_pad width ds) = width.
Proof.
  intros H; unfold Fmt.zero_pad; rewrite length_app, repeat_length; lia.
Qed.

(** A number below [16 ^ width] is printed as exactly [width] digits
    that denote it. *)
Lemma format_fixed_width (width : nat) (n : Z) :
  1 <= width -> (0 <= n < 16 ^ Z.of_nat width)%Z ->
  exists ds, Fmt.format_0X width n = string_of_list_ascii ds /\
    List.length ds = width /\ Fmt.hex_value ds = Some n.
Proof.
  intros Hw Hn; unfold Fmt.format_0X.
  destruct (Z.ltb_spec n 0) as [Hneg|_]; [lia|].
  exists (Fmt.zero_pad width (Fmt.to_hex n)); split; [reflexivity|]; split.
  - apply zero_pad_length, hex_digits_length; assumption.
  - rewrite zero_pad_value; apply hex_digits_value.
    split; [lia|apply to_hex_fuel; lia].
Qed.

Lemma tabulate_entries {A : Type} (f : Z -> A) (d : Np.ndarray) :
  Np.well_shaped d ->
  Np.tabulate (Np.height d) (Np.width d) (fun i j => f (Np.get d i j)) =
  map f (Np.data d).
Proof.
  intros Hd; unfold Np.get.
  apply (tabulate_flat (Np.height d) (Np.width d)
           (fun n => f (nth n (Np.data d) 0%Z)) _ (f 0%Z)).
  - now rewrite length_map.
  - intros n _; apply map_nth.
Qed.

(** X19.  The memory file of a uint8 image of height and width below
    2^32 holds the address line, the height and the width as eight
    hexadecimal digits each, and then one line of two hexadecimal digits
    per pixel, in the row-major order of the buffer. *)
Theorem mem_file_layout (img : Np.ndarray) :
  Np.uint8_array img ->
  (Z.of_nat (Np.height img) < 2 ^ 32)%Z ->
  (Z.of_nat (Np.width img) < 2 ^ 32)%Z ->
  exists hs ws,
    Fmt.generateMemFile img =
      "@00000000" ++ Fmt.nl ++
      string_of_list_ascii hs ++ Fmt.nl ++
      string_of_list_ascii ws ++ Fmt.nl ++
      concat "" (map (fun v => Fmt.byte_literal v ++ Fmt.nl) (Np.data img)) /\
    List.length hs = 8 /\ Fmt.hex_value hs = Some (Z.of_nat (Np.height img)) /\
    List.length ws = 8 /\ Fmt.hex_value ws = Some (Z.of_nat (Np.width img)).
Proof.
  intros [Hm Hr] Hh Hw.
  destruct (format_fixed_width 8 (Z.of_nat (Np.height img)))
    as (hs & Eh & Lh & Vh); [lia|change (16 ^ Z.of_nat 8)%Z with (2 ^ 32)%Z; lia|].
  destruct (format_fixed_width 8 (Z.of_nat (Np.width img)))
    as (ws & Ew & Lw & Vw); [lia|change (16 ^ Z.of_nat 8)%Z with (2 ^ 32)%Z; lia|].
  exists hs, ws; repeat split; try assumption.
  unfold Fmt.generateMemFile; cbv zeta; rewrite Eh, Ew.
  rewrite (tabulate_entries (fun v => Fmt.format_0X 2 v ++ Fmt.nl) img Hm).
  do 7 f_equal.
  apply map_ext_in; intros v Hv.
  rewrite format_byte; [reflexivity|].
  rewrite Forall_forall in Hr; now apply Hr.
Qed.

Lemma mem_file_layout_witness :
  exists hs ws,
    Fmt.generateMemFile example4x4 =
      "@00000000" ++ Fmt.nl ++
      string_of_list_ascii hs ++ Fmt.nl ++
      string_of_list_ascii ws ++ Fmt.nl ++
      concat "" (map (fun v => Fmt.byte_literal v ++ Fmt.nl)
                   (Np.data example4x4)) /\
    List.length hs = 8 /\
    Fmt.hex_value hs = Some (Z.of_nat (Np.height example4x4)) /\
    List.length ws = 8 /\
    Fmt.hex_value ws = Some (Z.of_nat (Np.width example4x4)).
Proof.
  apply (mem_file_layout example4x4).
  - split; [reflexivity|repeat constructor; vm_compute; congruence].
  - reflexivity.
  - reflexivity.
Defined.

End FmtFacts.

(** * The detector at its edges *)

(** X20.  Before the images are loaded the detector fails softly: if
    either image attribute is still [None], every hypothesis raises and
    is caught, six error lines are printed, and the verdict is UNKNOWN
    with score 0 and no results. *)
Theorem detect_without_images (self : ImageComparator) :
  original_img self = PyNone \/ transformed_img self = PyNone ->
  detect_transformation self = Ok (UNKNOWN, Fl 0, []) /\
  exists st, sweep self transformations = Ok st /\
    map (fun l => match l with
                  | Errored t _ => Some t
                  | Tested _ _ _ => None
                  end) (stdout st) = map Some declaration_order.
Proof.
  destruct self as [o c thr]; simpl.
  destruct o as [|a], c as [|b]; intros [H|H]; try discriminate H;
    (split; [reflexivity|eexists; split; reflexivity]).
Qed.

Lemma detect_without_images_witness :
  detect_transformation (new_comparator (95 # 100)) = Ok (UNKNOWN, Fl 0, []).
Proof.
  apply (detect_without_images (new_comparator (95 # 100))).
  left; reflexivity.
Defined.

Lemma positive_score_bounds (s : pyfloat) :
  py_gt s (Fl 0) = true -> py_gt s (Fl 100) = false ->
  exists q, s = Fl q /\ (0 <= q <= 100)%Q.
Proof.
  intros H0 H100; apply py_gt_Fl in H0 as (q & -> & Hq).
  exists q; split; [reflexivity|]; split; [now apply Qlt_le_weak|].
  simpl in H100; unfold Qltb in H100.
  now apply negb_false_iff, Qle_bool_iff in H100.
Qed.

(** X21.  The best score [detect_transformation] returns is always a
    number between 0 and 100, in every state of the comparator: it is
    never nan, even when hypotheses on images without pixels score
    nan. *)
Theorem best_score_is_a_percentage (self : ImageComparator) :
  exists v q, detect_transformation self = Ok v /\
    bestScore v = Fl q /\ (0 <= q <= 100)%Q.
Proof.
  destruct self as [o c thr].
  destruct o as [|a];
    [exists (UNKNOWN, Fl 0, []), 0%Q; destruct c; repeat split; discriminate|].
  destruct c as [|b];
    [exists (UNKNOWN, Fl 0, []), 0%Q; repeat split; discriminate|].
  fold (loaded a b thr).
  destruct (detect_loaded a b thr) as (v & Hv & _ & Hbest).
  destruct (detect_loaded_scores a b thr) as (v' & Hv' & Hr & _).
  rewrite Hv in Hv'; injection Hv' as <-.
  destruct Hbest as [(_ & Es & _) | (l1 & l2 & E & Hgt & _)].
  - exists v, 0%Q; repeat split; try assumption; discriminate.
  - assert (Hin : In (bestKind v, bestScore v) (allResults v))
      by (rewrite E; apply in_elt).
    assert (Hle : py_gt (bestScore v) (Fl 100) = false).
    { rewrite Hr in Hin; simpl in Hin.
      repeat (destruct Hin as [Hin|Hin];
              [injection Hin as _ <-; apply similarity_of_at_most_100|]).
      destruct Hin. }
    destruct (positive_score_bounds _ Hgt Hle) as (q & Eq & Hq).
    exists v, q; repeat split; try assumption; apply Hq.
Qed.

(** Two images without pixels: four hypotheses score nan, and the best
    score is still 0. *)
Example nan_scores_never_win :
  detect_transformation
    (loaded (Np.mk_ndarray (0, 3) []) (Np.mk_ndarray (0, 3) []) (95 # 100)) =
  Ok (UNKNOWN, Fl 0,
      [(IDENTICAL, NaN); (ROTATE_CW, Fl 0); (ROTATE_CCW, Fl 0);
       (ROTATE_180, NaN); (MIRROR_H, NaN); (MIRROR_V, NaN)]).
Proof. reflexivity. Qed.



(** With threshold 0 the report is a detection even when no hypothesis
    scored above 0, and it names UNKNOWN. *)
Example threshold_zero_detects_unknown :
  compare (loaded (Np.mk_ndarray (1, 1) [0%Z]) (Np.mk_ndarray (1, 1) [1%Z]) 0)
    false = Ok (UNKNOWN, Detected UNKNOWN (Fl 0) None).
Proof. reflexivity. Qed.

(** X23.  [detect_transformation] never raises to its caller.  In every
    state of the comparator, images loaded or not, the six hypotheses are
    all attempted, each prints one line, and a verdict is returned. *)
Theorem detect_never_raises (self : ImageComparator) :
  (exists v, detect_transformation self = Ok v) /\
  (exists st, sweep self transformations = Ok st /\ length (stdout st) = 6).
Proof.
  split.
  - destruct (detect_transformation_scored self) as (v & Hv & _).
    now exists v.
  - unfold sweep.
    destruct (for_each_sweep self transformations sweep_init)
      as (st & Hst & _ & _ & Hl).
    exists st; split; [assumption|exact Hl].
Qed.
